(** * lcls_orbit.widgets.OrbitDisplay: reference sampler and colour binner

    A shallow embedding of [src/lcls_orbit/widgets.py].  The widget object is
    a record of its instance fields; each method is a computation in a small
    state-and-exception monad, so that a mutation made before an exception
    is raised stays visible in the final state, as it does in Python.

    Modelling choices
    - A Python float (np.float64) is [float64]: an exact rational or NaN.
      Rounding and infinities are outside the model.  A missing reading
      (Python [None]) is [None] of [option float64].
    - Python dicts are insertion ordered; the code relies on that order
      (row index i of the accumulator is paired with [_z[i]]), so a dict is
      an association list with unique keys, see [dict_set].
    - An instance attribute that [__init__] may leave unassigned is an
      [attr]: reading [Unset] raises AttributeError.
    - The data source and the scalar signal source are external: what their
      [poll()] returns (or raises) in one cycle is the input [Env] of
      [update].
    - Of the plotting objects only what the methods read or write later is
      kept: the four column data sources, the colour of the two reference
      lines, the bar width and x range, and the number of zero lines added
      to each plot. *)

From Stdlib Require Import String Bool ZArith QArith Qabs List Lia Lqa.
Import ListNotations.

Set Implicit Arguments.

(** ** Python values and exceptions *)

Inductive float64 : Type :=
| NaN
| Fin (q : Q).

(** One reading of one device: a float, or [None] when missing. *)
Definition sample : Type := option float64.

Inductive exn : Type :=
| AttributeError
| TypeError
| ValueError
| IndexError
| KeyError
| UnboundLocalError
| FetchError.   (* whatever a failing poll() of an external source raises *)

Inductive result (A : Type) : Type :=
| Ok (a : A)
| Raise (e : exn).
Arguments Ok {A} a.
Arguments Raise {A} e.

Definition is_ok {A} (r : result A) : bool :=
  match r with Ok _ => true | Raise _ => false end.

Definition rbind {A B} (r : result A) (k : A -> result B) : result B :=
  match r with
  | Ok a => k a
  | Raise e => Raise e
  end.

(** ** Float operations (numpy and builtins) *)

Definition np_isnan (x : float64) : bool :=
  match x with NaN => true | Fin _ => false end.

Definition float_sub (a b : float64) : float64 :=
  match a, b with
  | Fin x, Fin y => Fin (x - y)
  | _, _ => NaN
  end.

Definition float_divQ (a : float64) (n : Q) : float64 :=
  match a with
  | Fin x => Fin (x / n)
  | NaN => NaN
  end.

Definition np_abs (a : float64) : float64 :=
  match a with
  | Fin x => Fin (Qabs x)
  | NaN => NaN
  end.

(** [a < b] and [a >= b] on floats: every comparison with NaN is false. *)
Definition float_lt (a b : float64) : bool :=
  match a, b with
  | Fin x, Fin y => negb (Qle_bool y x)
  | _, _ => false
  end.

Definition float_ge (a b : float64) : bool :=
  match a, b with
  | Fin x, Fin y => Qle_bool y x
  | _, _ => false
  end.

(** Builtin [min] / [max] over a sequence: the first element is kept unless
    a later one compares strictly smaller (greater); empty raises. *)
Definition py_min (l : list float64) : result float64 :=
  match l with
  | [] => Raise ValueError
  | x :: r => Ok (fold_left (fun m y => if float_lt y m then y else m) r x)
  end.

Definition py_max (l : list float64) : result float64 :=
  match l with
  | [] => Raise ValueError
  | x :: r => Ok (fold_left (fun m y => if float_lt m y then y else m) r x)
  end.

(** [ndarray.argmin()]: index of the first occurrence of the minimum; a NaN
    counts as minimal and ends the scan; an empty array raises. *)
Fixpoint argmin_scan (mp : float64) (min_ind i : nat) (ip : list float64) : nat :=
  match ip with
  | [] => min_ind
  | x :: ip' =>
      if float_ge x mp then argmin_scan mp min_ind (S i) ip'
      else if np_isnan x then i
      else argmin_scan x i (S i) ip'
  end.

Definition np_argmin (a : list float64) : result nat :=
  match a with
  | [] => Raise ValueError
  | mp :: rest => if np_isnan mp then Ok 0%nat else Ok (argmin_scan mp 0 1 rest)
  end.

(** [np.mean] of a list of floats: NaN for the empty list and whenever an
    entry is NaN, the arithmetic mean otherwise (kept in lowest terms). *)
Fixpoint float_sum (l : list float64) : float64 :=
  match l with
  | [] => Fin 0
  | NaN :: _ => NaN
  | Fin x :: r =>
      match float_sum r with
      | Fin s => Fin (x + s)
      | NaN => NaN
      end
  end.

Definition np_mean (l : list float64) : float64 :=
  match l with
  | [] => NaN
  | _ :: _ =>
      match float_sum l with
      | Fin s => Fin (Qred (s / inject_Z (Z.of_nat (length l))))
      | NaN => NaN
      end
  end.

(** [[x for x in l if x != None]] *)
Fixpoint present (l : list sample) : list float64 :=
  match l with
  | [] => []
  | Some x :: r => x :: present r
  | None :: r => present r
  end.

(** [np.array(..., dtype=np.float64)] turns [None] into NaN. *)
Definition to_float64 (x : sample) : float64 :=
  match x with Some f => f | None => NaN end.

(** [range(a, b, step)] with [step = len(...)], hence never negative:
    [a, a + step, ...] below [b]; [step = 0] raises ValueError. *)
Fixpoint range_from (a step : Z) (n : nat) : list Z :=
  match n with
  | O => []
  | S n' => a :: range_from (a + step) step n'
  end.

Definition py_range (a b : Z) (step : nat) : result (list Z) :=
  match step with
  | O => Raise ValueError
  | S _ =>
      let st := Z.of_nat step in
      if (a <? b)%Z
      then Ok (range_from a st (Z.to_nat ((b - a + st - 1) / st)))
      else Ok []
  end.

(** ** Insertion-ordered dicts keyed by strings *)

Definition dict (V : Type) : Type := list (string * V).

Definition keys {V} (d : dict V) : list string := map fst d.

Fixpoint dict_get {V} (d : dict V) (k : string) : option V :=
  match d with
  | [] => None
  | (k', v) :: r => if String.eqb k' k then Some v else dict_get r k
  end.

(** [d[k] = v]: overwrite in place, or append a new key at the end. *)
Fixpoint dict_set {V} (d : dict V) (k : string) (v : V) : dict V :=
  match d with
  | [] => [(k, v)]
  | (k', v') :: r =>
      if String.eqb k' k then (k', v) :: r else (k', v') :: dict_set r k v
  end.

(** [{row: [] for row in rows}] *)
Definition empty_lists (rows : list string) : dict (list sample) :=
  fold_left (fun d r => dict_set d r []) rows [].

(** [for k in d: d[k] = []] *)
Definition clear_lists (d : dict (list sample)) : dict (list sample) :=
  map (fun kv => (fst kv, @nil sample)) d.

(** ** The widget object *)

Inductive attr (A : Type) : Type :=
| Unset
| Assigned (a : A).
Arguments Unset {A}.
Arguments Assigned {A} a.

Definition ScalarVariable : Type := string.
Definition Controller : Type := string.
Definition color : Type := string.

(** [lume_model.variables.TableVariable], as far as the widget reads it:
    [table.table_data["Z"]] (row to z coordinate) and [table.rows]. *)
Record TableVariable : Type := {
  table_data_Z : dict float64;
  rows : list string
}.

(** [ColumnDataSource.data] of a bar series: columns x, y, device, color. *)
Record BarData : Type := {
  bar_x : list float64;
  bar_y : list float64;
  bar_device : list string;
  bar_color : list color
}.

(** [ColumnDataSource.data] of a reference line: columns x and y, and a
    column color once [_reset_reference] has added it. *)
Record RefData : Type := {
  ref_x : list float64;
  ref_y : list float64;
  ref_color : option (list color)
}.

(** [self._reference_measurements]: one accumulator dict per axis. *)
Record Measurements : Type := {
  accX : dict (list sample);
  accY : dict (list sample)
}.

Record OrbitDisplay : Type := {
  _z : list float64;
  _monitor : TableVariable;                       (* PVTable(table, controller) *)
  _controller : Controller;
  _color_monitor : attr (option ScalarVariable);  (* PVScalar(color_var, ...) or None *)
  _extents : attr (list float64);
  _color_map : attr (list color);
  _bar_width : float64;
  _x_range : float64 * float64;
  _x_source : BarData;
  _y_source : BarData;
  _collecting_reference : bool;
  _reference_measurements : Measurements;
  _reference_n : Z;
  _reference_count : Z;
  _x_ref_source : RefData;
  _y_ref_source : RefData;
  _x_ref_line_color : option color;               (* None: the glyph default *)
  _y_ref_line_color : option color;
  x_plot_hlines : nat;
  y_plot_hlines : nat
}.

(** Field assignments. *)
Definition set_z v (s : OrbitDisplay) : OrbitDisplay :=
  {| _z := v; _monitor := _monitor s; _controller := _controller s;
     _color_monitor := _color_monitor s; _extents := _extents s;
     _color_map := _color_map s; _bar_width := _bar_width s;
     _x_range := _x_range s; _x_source := _x_source s;
     _y_source := _y_source s;
     _collecting_reference := _collecting_reference s;
     _reference_measurements := _reference_measurements s;
     _reference_n := _reference_n s; _reference_count := _reference_count s;
     _x_ref_source := _x_ref_source s; _y_ref_source := _y_ref_source s;
     _x_ref_line_color := _x_ref_line_color s;
     _y_ref_line_color := _y_ref_line_color s;
     x_plot_hlines := x_plot_hlines s; y_plot_hlines := y_plot_hlines s |}.

Definition set_monitor v (s : OrbitDisplay) : OrbitDisplay :=
  {| _z := _z s; _monitor := v; _controller := _controller s;
     _color_monitor := _color_monitor s; _extents := _extents s;
     _color_map := _color_map s; _bar_width := _bar_width s;
     _x_range := _x_range s; _x_source := _x_source s;
     _y_source := _y_source s;
     _collecting_reference := _collecting_reference s;
     _reference_measurements := _reference_measurements s;
     _reference_n := _reference_n s; _reference_count := _reference_count s;
     _x_ref_source := _x_ref_source s; _y_ref_source := _y_ref_source s;
     _x_ref_line_color := _x_ref_line_color s;
     _y_ref_line_color := _y_ref_line_color s;
     x_plot_hlines := x_plot_hlines s; y_plot_hlines := y_plot_hlines s |}.

Definition set_color_monitor v (s : OrbitDisplay) : OrbitDisplay :=
  {| _z := _z s; _monitor := _monitor s; _controller := _controller s;
     _color_monitor := v; _extents := _extents s;
     _color_map := _color_map s; _bar_width := _bar_width s;
     _x_range := _x_range s; _x_source := _x_source s;
     _y_source := _y_source s;
     _collecting_reference := _collecting_reference s;
     _reference_measurements := _reference_measurements s;
     _reference_n := _reference_n s; _reference_count := _reference_count s;
     _x_ref_source := _x_ref_source s; _y_ref_source := _y_ref_source s;
     _x_ref_line_color := _x_ref_line_color s;
     _y_ref_line_color := _y_ref_line_color s;
     x_plot_hlines := x_plot_hlines s; y_plot_hlines := y_plot_hlines s |}.

Definition set_extents v (s : OrbitDisplay) : OrbitDisplay :=
  {| _z := _z s; _monitor := _monitor s; _controller := _controller s;
     _color_monitor := _color_monitor s; _extents := v;
     _color_map := _color_map s; _bar_width := _bar_width s;
     _x_range := _x_range s; _x_source := _x_source s;
     _y_source := _y_source s;
     _collecting_reference := _collecting_reference s;
     _reference_measurements := _reference_measurements s;
     _reference_n := _reference_n s; _reference_count := _reference_count s;
     _x_ref_source := _x_ref_source s; _y_ref_source := _y_ref_source s;
     _x_ref_line_color := _x_ref_line_color s;
     _y_ref_line_color := _y_ref_line_color s;
     x_plot_hlines := x_plot_hlines s; y_plot_hlines := y_plot_hlines s |}.

Definition set_color_map v (s : OrbitDisplay) : OrbitDisplay :=
  {| _z := _z s; _monitor := _monitor s; _controller := _controller s;
     _color_monitor := _color_monitor s; _extents := _extents s;
     _color_map := v; _bar_width := _bar_width s;
     _x_range := _x_range s; _x_source := _x_source s;
     _y_source := _y_source s;
     _collecting_reference := _collecting_reference s;
     _reference_measurements := _reference_measurements s;
     _reference_n := _reference_n s; _reference_count := _reference_count s;
     _x_ref_source := _x_ref_source s; _y_ref_source := _y_ref_source s;
     _x_ref_line_color := _x_ref_line_color s;
     _y_ref_line_color := _y_ref_line_color s;
     x_plot_hlines := x_plot_hlines s; y_plot_hlines := y_plot_hlines s |}.

Definition set_x_source v (s : OrbitDisplay) : OrbitDisplay :=
  {| _z := _z s; _monitor := _monitor s; _controller := _controller s;
     _color_monitor := _color_monitor s; _extents := _extents s;
     _color_map := _color_map s; _bar_width := _bar_width s;
     _x_range := _x_range s; _x_source := v;
     _y_source := _y_source s;
     _collecting_reference := _collecting_reference s;
     _reference_measurements := _reference_measurements s;
     _reference_n := _reference_n s; _reference_count := _reference_count s;
     _x_ref_source := _x_ref_source s; _y_ref_source := _y_ref_source s;
     _x_ref_line_color := _x_ref_line_color s;
     _y_ref_line_color := _y_ref_line_color s;
     x_plot_hlines := x_plot_hlines s; y_plot_hlines := y_plot_hlines s |}.

Definition set_y_source v (s : OrbitDisplay) : OrbitDisplay :=
  {| _z := _z s; _monitor := _monitor s; _controller := _controller s;
     _color_monitor := _color_monitor s; _extents := _extents s;
     _color_map := _color_map s; _bar_width := _bar_width s;
     _x_range := _x_range s; _x_source := _x_source s;
     _y_source := v;
     _collecting_reference := _collecting_reference s;
     _reference_measurements := _reference_measurements s;
     _reference_n := _reference_n s; _reference_count := _reference_count s;
     _x_ref_source := _x_ref_source s; _y_ref_source := _y_ref_source s;
     _x_ref_line_color := _x_ref_line_color s;
     _y_ref_line_color := _y_ref_line_color s;
     x_plot_hlines := x_plot_hlines s; y_plot_hlines := y_plot_hlines s |}.

Definition set_collecting_reference v (s : OrbitDisplay) : OrbitDisplay :=
  {| _z := _z s; _monitor := _monitor s; _controller := _controller s;
     _color_monitor := _color_monitor s; _extents := _extents s;
     _color_map := _color_map s; _bar_width := _bar_width s;
     _x_range := _x_range s; _x_source := _x_source s;
     _y_source := _y_source s;
     _collecting_reference := v;
     _reference_measurements := _reference_measurements s;
     _reference_n := _reference_n s; _reference_count := _reference_count s;
     _x_ref_source := _x_ref_source s; _y_ref_source := _y_ref_source s;
     _x_ref_line_color := _x_ref_line_color s;
     _y_ref_line_color := _y_ref_line_color s;
     x_plot_hlines := x_plot_hlines s; y_plot_hlines := y_plot_hlines s |}.

Definition set_reference_measurements v (s : OrbitDisplay) : OrbitDisplay :=
  {| _z := _z s; _monitor := _monitor s; _controller := _controller s;
     _color_monitor := _color_monitor s; _extents := _extents s;
     _color_map := _color_map s; _bar_width := _bar_width s;
     _x_range := _x_range s; _x_source := _x_source s;
     _y_source := _y_source s;
     _collecting_reference := _collecting_reference s;
     _reference_measurements := v;
     _reference_n := _reference_n s; _reference_count := _reference_count s;
     _x_ref_source := _x_ref_source s; _y_ref_source := _y_ref_source s;
     _x_ref_line_color := _x_ref_line_color s;
     _y_ref_line_color := _y_ref_line_color s;
     x_plot_hlines := x_plot_hlines s; y_plot_hlines := y_plot_hlines s |}.

Definition set_reference_count v (s : OrbitDisplay) : OrbitDisplay :=
  {| _z := _z s; _monitor := _monitor s; _controller := _controller s;
     _color_monitor := _color_monitor s; _extents := _extents s;
     _color_map := _color_map s; _bar_width := _bar_width s;
     _x_range := _x_range s; _x_source := _x_source s;
     _y_source := _y_source s;
     _collecting_reference := _collecting_reference s;
     _reference_measurements := _reference_measurements s;
     _reference_n := _reference_n s; _reference_count := v;
     _x_ref_source := _x_ref_source s; _y_ref_source := _y_ref_source s;
     _x_ref_line_color := _x_ref_line_color s;
     _y_ref_line_color := _y_ref_line_color s;
     x_plot_hlines := x_plot_hlines s; y_plot_hlines := y_plot_hlines s |}.

Definition set_x_ref_source v (s : OrbitDisplay) : OrbitDisplay :=
  {| _z := _z s; _monitor := _monitor s; _controller := _controller s;
     _color_monitor := _color_monitor s; _extents := _extents s;
     _color_map := _color_map s; _bar_width := _bar_width s;
     _x_range := _x_range s; _x_source := _x_source s;
     _y_source := _y_source s;
     _collecting_reference := _collecting_reference s;
     _reference_measurements := _reference_measurements s;
     _reference_n := _reference_n s; _reference_count := _reference_count s;
     _x_ref_source := v; _y_ref_source := _y_ref_source s;
     _x_ref_line_color := _x_ref_line_color s;
     _y_ref_line_color := _y_ref_line_color s;
     x_plot_hlines := x_plot_hlines s; y_plot_hlines := y_plot_hlines s |}.

Definition set_y_ref_source v (s : OrbitDisplay) : OrbitDisplay :=
  {| _z := _z s; _monitor := _monitor s; _controller := _controller s;
     _color_monitor := _color_monitor s; _extents := _extents s;
     _color_map := _color_map s; _bar_width := _bar_width s;
     _x_range := _x_range s; _x_source := _x_source s;
     _y_source := _y_source s;
     _collecting_reference := _collecting_reference s;
     _reference_measurements := _reference_measurements s;
     _reference_n := _reference_n s; _reference_count := _reference_count s;
     _x_ref_source := _x_ref_source s; _y_ref_source := v;
     _x_ref_line_color := _x_ref_line_color s;
     _y_ref_line_color := _y_ref_line_color s;
     x_plot_hlines := x_plot_hlines s; y_plot_hlines := y_plot_hlines s |}.

Definition set_x_ref_line_color v (s : OrbitDisplay) : OrbitDisplay :=
  {| _z := _z s; _monitor := _monitor s; _controller := _controller s;
     _color_monitor := _color_monitor s; _extents := _extents s;
     _color_map := _color_map s; _bar_width := _bar_width s;
     _x_range := _x_range s; _x_source := _x_source s;
     _y_source := _y_source s;
     _collecting_reference := _collecting_reference s;
     _reference_measurements := _reference_measurements s;
     _reference_n := _reference_n s; _reference_count := _reference_count s;
     _x_ref_source := _x_ref_source s; _y_ref_source := _y_ref_source s;
     _x_ref_line_color := v;
     _y_ref_line_color := _y_ref_line_color s;
     x_plot_hlines := x_plot_hlines s; y_plot_hlines := y_plot_hlines s |}.

Definition set_y_ref_line_color v (s : OrbitDisplay) : OrbitDisplay :=
  {| _z := _z s; _monitor := _monitor s; _controller := _controller s;
     _color_monitor := _color_monitor s; _extents := _extents s;
     _color_map := _color_map s; _bar_width := _bar_width s;
     _x_range := _x_range s; _x_source := _x_source s;
     _y_source := _y_source s;
     _collecting_reference := _collecting_reference s;
     _reference_measurements := _reference_measurements s;
     _reference_n := _reference_n s; _reference_count := _reference_count s;
     _x_ref_source := _x_ref_source s; _y_ref_source := _y_ref_source s;
     _x_ref_line_color := _x_ref_line_color s;
     _y_ref_line_color := v;
     x_plot_hlines := x_plot_hlines s; y_plot_hlines := y_plot_hlines s |}.

Definition set_x_plot_hlines v (s : OrbitDisplay) : OrbitDisplay :=
  {| _z := _z s; _monitor := _monitor s; _controller := _controller s;
     _color_monitor := _color_monitor s; _extents := _extents s;
     _color_map := _color_map s; _bar_width := _bar_width s;
     _x_range := _x_range s; _x_source := _x_source s;
     _y_source := _y_source s;
     _collecting_reference := _collecting_reference s;
     _reference_measurements := _reference_measurements s;
     _reference_n := _reference_n s; _reference_count := _reference_count s;
     _x_ref_source := _x_ref_source s; _y_ref_source := _y_ref_source s;
     _x_ref_line_color := _x_ref_line_color s;
     _y_ref_line_color := _y_ref_line_color s;
     x_plot_hlines := v; y_plot_hlines := y_plot_hlines s |}.

Definition set_y_plot_hlines v (s : OrbitDisplay) : OrbitDisplay :=
  {| _z := _z s; _monitor := _monitor s; _controller := _controller s;
     _color_monitor := _color_monitor s; _extents := _extents s;
     _color_map := _color_map s; _bar_width := _bar_width s;
     _x_range := _x_range s; _x_source := _x_source s;
     _y_source := _y_source s;
     _collecting_reference := _collecting_reference s;
     _reference_measurements := _reference_measurements s;
     _reference_n := _reference_n s; _reference_count := _reference_count s;
     _x_ref_source := _x_ref_source s; _y_ref_source := _y_ref_source s;
     _x_ref_line_color := _x_ref_line_color s;
     _y_ref_line_color := _y_ref_line_color s;
     x_plot_hlines := x_plot_hlines s; y_plot_hlines := v |}.

(** ** State and exceptions *)

(** A method body: it reads and writes the object and returns or raises;
    the object after a raise is the object as mutated up to that point. *)
Definition M (A : Type) : Type := OrbitDisplay -> result A * OrbitDisplay.

Definition ret {A} (a : A) : M A := fun s => (Ok a, s).

Definition bind {A B} (m : M A) (k : A -> M B) : M B :=
  fun s =>
    match m s with
    | (Ok a, s') => k a s'
    | (Raise e, s') => (Raise e, s')
    end.

Definition lift {A} (r : result A) : M A := fun s => (r, s).

Definition gets {A} (f : OrbitDisplay -> A) : M A := fun s => (Ok (f s), s).

Definition modify (f : OrbitDisplay -> OrbitDisplay) : M unit :=
  fun s => (Ok tt, f s).

(** [self.name] for an attribute that may never have been assigned. *)
Definition getattr {A} (f : OrbitDisplay -> attr A) : M A :=
  fun s =>
    match f s with
    | Assigned a => (Ok a, s)
    | Unset => (Raise AttributeError, s)
    end.

Declare Scope py_scope.
Delimit Scope py_scope with py.
Notation "x <- m ;; k" := (bind m (fun x => k))
  (at level 61, m at next level, right associativity) : py_scope.
Notation "m ;;; k" := (bind m (fun _ => k))
  (at level 61, right associativity) : py_scope.
Notation "x <~ r ;; k" := (rbind r (fun x => k))
  (at level 61, r at next level, right associativity) : py_scope.
Open Scope py_scope.

(** [l[i]] for a list and a non-negative index. *)
Definition list_index {A} (l : list A) (i : nat) : result A :=
  match nth_error l i with
  | Some a => Ok a
  | None => Raise IndexError
  end.

(** ** One refresh cycle's input *)

(** [vals = self._monitor.poll()]: one dict of device readings per axis. *)
Record Vals : Type := {
  valsX : dict sample;
  valsY : dict sample
}.

(** What the two external sources do when polled in this cycle. *)
Record Env : Type := {
  monitor_poll : result Vals;
  color_monitor_poll : result sample
}.

(** ** Colour binning (widgets.py, lines 196-198) *)

(** [(np.abs(self._extents - color_val)).argmin()].  Subtracting [None]
    from a non-empty array raises TypeError; the empty array has no minimum
    whatever the value is. *)
Definition bin_index (extents : list float64) (color_val : sample) : result nat :=
  match extents, color_val with
  | _ :: _, None => Raise TypeError
  | _, None => Raise ValueError
  | _, Some v => np_argmin (map (fun e => np_abs (float_sub e v)) extents)
  end.

Definition gray : color := "#695f5e"%string.

(** Lines 195-203: the bound local [color] (unbound on the default branch)
    and the list [colors]. *)
Definition pick_colors (io : Env) (vals : Vals) : M (option color * list color) :=
  cm <- getattr _color_monitor ;;
  match cm with
  | Some _ =>
      color_val <- lift (color_monitor_poll io) ;;
      extents <- getattr _extents ;;
      idx <- lift (bin_index extents color_val) ;;
      cmap <- getattr _color_map ;;
      c <- lift (list_index cmap idx) ;;
      ret (Some c, map (fun _ => c) (valsX vals))
  | None =>
      ret (None, map (fun _ => gray) (valsX vals))
  end.

(** ** Reference sampler (widgets.py, lines 206-244) *)

(** [for device in vs: acc[device].append(vs[device])]; a device the
    accumulator does not know raises KeyError after the earlier appends.
    The keys of a dict are distinct, so [vs[device]] is the value the
    iteration is at. *)
Fixpoint append_samples (vs : dict sample) (acc : dict (list sample))
  : result unit * dict (list sample) :=
  match vs with
  | [] => (Ok tt, acc)
  | (device, v) :: vs' =>
      match dict_get acc device with
      | None => (Raise KeyError, acc)
      | Some l => append_samples vs' (dict_set acc device (l ++ [v]))
      end
  end.

Definition set_accX a (s : OrbitDisplay) : OrbitDisplay :=
  set_reference_measurements
    {| accX := a; accY := accY (_reference_measurements s) |} s.

Definition set_accY a (s : OrbitDisplay) : OrbitDisplay :=
  set_reference_measurements
    {| accX := accX (_reference_measurements s); accY := a |} s.

Definition append_X (vs : dict sample) : M unit :=
  fun s =>
    let ra := append_samples vs (accX (_reference_measurements s)) in
    (fst ra, set_accX (snd ra) s).

Definition append_Y (vs : dict sample) : M unit :=
  fun s =>
    let ra := append_samples vs (accY (_reference_measurements s)) in
    (fst ra, set_accY (snd ra) s).

(** [[np.mean([x for x in acc[device] if x != None]) for device in acc]] *)
Definition axis_means (acc : dict (list sample)) : list float64 :=
  map (fun kv => np_mean (present (snd kv))) acc.

(** [[self._z[i] for i, x in enumerate(means) if not np.isnan(x)]], the
    enumeration being at index [i]. *)
Fixpoint line_z (z : list float64) (i : nat) (means : list float64)
  : result (list float64) :=
  match means with
  | [] => Ok []
  | x :: means' =>
      if np_isnan x then line_z z (S i) means'
      else
        zi <~ list_index z i ;;
        rest <~ line_z z (S i) means' ;;
        Ok (zi :: rest)
  end.

(** [[x for x in means if not np.isnan(x)]] *)
Definition drop_nan (means : list float64) : list float64 :=
  filter (fun x => negb (np_isnan x)) means.

(** [source.data.update({"x": xs, "y": ys})] on a reference source. *)
Definition ref_update_xy (xs ys : list float64) (d : RefData) : RefData :=
  {| ref_x := xs; ref_y := ys; ref_color := ref_color d |}.

(** Lines 216-244, run when the countdown has reached zero. *)
Definition complete_reference (color : option color) : M unit :=
  modify (set_collecting_reference false) ;;;
  x_mean <- gets (fun s => axis_means (accX (_reference_measurements s))) ;;
  z <- gets _z ;;
  x_line_z <- lift (line_z z 0 x_mean) ;;
  y_mean <- gets (fun s => axis_means (accY (_reference_measurements s))) ;;
  z' <- gets _z ;;
  y_line_z <- lift (line_z z' 0 y_mean) ;;
  modify (fun s => set_accX (clear_lists (accX (_reference_measurements s))) s) ;;;
  modify (fun s => set_accY (clear_lists (accY (_reference_measurements s))) s) ;;;
  modify (fun s => set_reference_count (_reference_n s) s) ;;;
  c <- lift (match color with
             | Some c => Ok c
             | None => Raise UnboundLocalError
             end) ;;
  modify (set_x_ref_line_color (Some c)) ;;;
  modify (set_y_ref_line_color (Some c)) ;;;
  modify (fun s =>
            set_x_ref_source
              (ref_update_xy x_line_z (drop_nan x_mean) (_x_ref_source s)) s) ;;;
  modify (fun s =>
            set_y_ref_source
              (ref_update_xy y_line_z (drop_nan y_mean) (_y_ref_source s)) s).

(** Lines 206-244. *)
Definition collect_step (vals : Vals) (color : option color) : M unit :=
  collecting <- gets _collecting_reference ;;
  if collecting : bool then
    modify (fun s => set_reference_count (_reference_count s - 1)%Z s) ;;;
    append_X (valsX vals) ;;;
    append_Y (valsY vals) ;;;
    count <- gets _reference_count ;;
    if (count =? 0)%Z then complete_reference color else ret tt
  else ret tt.

(** ** Raw series (widgets.py, lines 247-267) *)

(** [min(x) < 0 < max(x)] *)
Definition zero_inside (x : list float64) : result bool :=
  mn <~ py_min x ;;
  if float_lt mn (Fin 0) then
    mx <~ py_max x ;;
    Ok (float_lt (Fin 0) mx)
  else Ok false.

Definition publish_raw (vals : Vals) (colors : list color) : M unit :=
  let devices := keys (valsX vals) in
  let x := map (fun kv => to_float64 (snd kv)) (valsX vals) in
  let y := map (fun kv => to_float64 (snd kv)) (valsY vals) in
  inx <- lift (zero_inside x) ;;
  (if inx : bool
   then modify (fun s => set_x_plot_hlines (S (x_plot_hlines s)) s)
   else ret tt) ;;;
  iny <- lift (zero_inside y) ;;
  (if iny : bool
   then modify (fun s => set_y_plot_hlines (S (y_plot_hlines s)) s)
   else ret tt) ;;;
  modify (fun s =>
            set_x_source
              {| bar_x := _z s; bar_y := x;
                 bar_device := devices; bar_color := colors |} s) ;;;
  modify (fun s =>
            set_y_source
              {| bar_x := _z s; bar_y := y;
                 bar_device := devices; bar_color := colors |} s).

(** ** [OrbitDisplay.update] *)

Definition update (io : Env) : M unit :=
  vals <- lift (monitor_poll io) ;;
  cc <- pick_colors io vals ;;
  collect_step vals (fst cc) ;;;
  publish_raw vals (snd cc).

(** ** [OrbitDisplay.update_table], [_collect_reference], [_reset_reference] *)

Definition z_of_table (table : TableVariable) : list float64 :=
  map snd (table_data_Z table).

Definition fresh_measurements (table : TableVariable) : Measurements :=
  {| accX := empty_lists (rows table); accY := empty_lists (rows table) |}.

Definition update_table (table : TableVariable) : M unit :=
  modify (set_monitor table) ;;;
  modify (set_z (z_of_table table)) ;;;
  modify (fun s => set_x_ref_source (ref_update_xy [] [] (_x_ref_source s)) s) ;;;
  modify (fun s => set_y_ref_source (ref_update_xy [] [] (_y_ref_source s)) s) ;;;
  modify (set_reference_measurements (fresh_measurements table)).

Definition _collect_reference : M unit :=
  modify (set_collecting_reference true).

(** [source.data.update({"x": [], "y": [], "color": []})] *)
Definition ref_cleared : RefData :=
  {| ref_x := []; ref_y := []; ref_color := Some [] |}.

Definition _reset_reference : M unit :=
  modify (set_x_ref_source ref_cleared) ;;;
  modify (set_y_ref_source ref_cleared).

(** ** [OrbitDisplay.update_colormap] *)

Definition float_of_int (n : Z) : float64 := Fin (inject_Z n).

(** [range()] takes integers only, so [extents] is a list of integers
    here. *)
Definition update_colormap (color_var : ScalarVariable) (cmap : list color)
    (extents : list Z) : M unit :=
  modify (set_color_map (Assigned cmap)) ;;;
  lo <- lift (list_index extents 0) ;;
  hi <- lift (list_index extents 1) ;;
  cmap' <- getattr _color_map ;;
  r <- lift (py_range lo hi (length cmap')) ;;
  modify (set_extents (Assigned (map float_of_int r))) ;;;
  modify (set_color_monitor (Assigned (Some color_var))).

(** ** [OrbitDisplay.__init__] *)

(** The constructor's arguments that reach the sampler, the binner or a
    failure of the constructor ([longitudinal_labels], [height] and [width]
    only decorate the figures). *)
Record InitArgs : Type := {
  arg_table : TableVariable;
  arg_controller : Controller;
  arg_bar_width : option Z;
  arg_color_var : option ScalarVariable;
  arg_color_map : option (list color);
  arg_extents : option (list float64);
  arg_reference_n : Z
}.

Definition float_add (a b : float64) : float64 :=
  match a, b with
  | Fin x, Fin y => Fin (x + y)
  | _, _ => NaN
  end.

(** Lines 49-59. *)
Definition init_color (a : InitArgs)
  : result (attr (option ScalarVariable) * attr (list float64) * attr (list color)) :=
  match arg_color_var a with
  | Some cv =>
      match arg_extents a with
      | None => Raise ValueError
      | Some e =>
          match arg_color_map a with
          | None => Raise ValueError
          | Some cm => Ok (Assigned (Some cv), Assigned e, Assigned cm)
          end
      end
  | None => Ok (Unset, Unset, Unset)
  end.

(** Lines 61-64: [if not bar_width] holds for [None] and for 0. *)
Definition init_bar_width (a : InitArgs) (z : list float64) : result float64 :=
  match arg_bar_width a with
  | Some (Zpos _ as w) | Some (Zneg _ as w) => Ok (float_of_int w)
  | _ =>
      mx <~ py_max z ;;
      mn <~ py_min z ;;
      Ok (float_divQ (float_sub mx mn) (inject_Z (Z.of_nat (length z) + 1)))
  end.

(** Lines 157-158: [extents[0]], [extents[1]]. *)
Definition color_bar_bounds (extents : option (list float64))
  : result (float64 * float64) :=
  match extents with
  | None => Raise TypeError
  | Some e =>
      low <~ list_index e 0 ;;
      high <~ list_index e 1 ;;
      Ok (low, high)
  end.

Definition no_bars : BarData :=
  {| bar_x := []; bar_y := []; bar_device := []; bar_color := [] |}.

Definition no_ref : RefData :=
  {| ref_x := []; ref_y := []; ref_color := None |}.

Definition init (a : InitArgs) : result OrbitDisplay :=
  let z := z_of_table (arg_table a) in
  cattrs <~ init_color a ;;
  bw <~ init_bar_width a z ;;
  mn <~ py_min z ;;
  mx <~ py_max z ;;
  let half := float_divQ bw 2 in
  _bounds <~ color_bar_bounds (arg_extents a) ;;
  Ok {| _z := z;
        _monitor := arg_table a;
        _controller := arg_controller a;
        _color_monitor := fst (fst cattrs);
        _extents := snd (fst cattrs);
        _color_map := snd cattrs;
        _bar_width := bw;
        _x_range := (float_sub mn half, float_add mx half);
        _x_source := no_bars;
        _y_source := no_bars;
        _collecting_reference := false;
        _reference_measurements := fresh_measurements (arg_table a);
        _reference_n := arg_reference_n a;
        _reference_count := arg_reference_n a;
        _x_ref_source := no_ref;
        _y_ref_source := no_ref;
        _x_ref_line_color := None;
        _y_ref_line_color := None;
        x_plot_hlines := 0;
        y_plot_hlines := 0 |}.

(** The object a method call leaves, and what the call returned or
    raised. *)
Definition run {A} (m : M A) (s : OrbitDisplay) : OrbitDisplay := snd (m s).
Definition outcome {A} (m : M A) (s : OrbitDisplay) : result A := fst (m s).

(** ** The scenario of three devices *)

Module Scenario.

Definition table3 : TableVariable :=
  {| table_data_Z := [("d0", Fin 0); ("d1", Fin 1); ("d2", Fin 2)]%string;
     rows := ["d0"; "d1"; "d2"]%string |}.

(** A colour signal is configured: without one [update] raises. *)
Definition args : InitArgs :=
  {| arg_table := table3;
     arg_controller := "controller"%string;
     arg_bar_width := None;
     arg_color_var := Some "signal"%string;
     arg_color_map := Some ["red"; "green"; "blue"]%string;
     arg_extents := Some [Fin 0; Fin 1; Fin 2];
     arg_reference_n := 2 |}.

Definition readings (a b c : sample) : dict sample :=
  [("d0", a); ("d1", b); ("d2", c)]%string.

Definition cycle (x y : dict sample) (cv : float64) : Env :=
  {| monitor_poll := Ok {| valsX := x; valsY := y |};
     color_monitor_poll := Ok (Some cv) |}.

Definition x1 : dict sample := readings (Some (Fin 1)) None (Some (Fin 3)).
Definition x2 : dict sample := readings (Some (Fin 3)) None (Some (Fin 5)).

(** The object [OrbitDisplay(table3, ...)] returns, see [init_args]. *)
Definition s0 : OrbitDisplay :=
  {| _z := [Fin 0; Fin 1; Fin 2];
     _monitor := table3;
     _controller := "controller"%string;
     _color_monitor := Assigned (Some "signal"%string);
     _extents := Assigned [Fin 0; Fin 1; Fin 2];
     _color_map := Assigned ["red"; "green"; "blue"]%string;
     _bar_width := Fin (2 # 4);
     _x_range := (Fin (-2 # 8), Fin (18 # 8));
     _x_source := no_bars;
     _y_source := no_bars;
     _collecting_reference := false;
     _reference_measurements :=
       {| accX := [("d0", []); ("d1", []); ("d2", [])]%string;
          accY := [("d0", []); ("d1", []); ("d2", [])]%string |};
     _reference_n := 2;
     _reference_count := 2;
     _x_ref_source := no_ref;
     _y_ref_source := no_ref;
     _x_ref_line_color := None;
     _y_ref_line_color := None;
     x_plot_hlines := 0;
     y_plot_hlines := 0 |}.

(** One cycle into a capture: the button was clicked and [update] ran
    once on the readings [x1] for both axes. *)
Definition mid_capture : OrbitDisplay :=
  run (update (cycle x1 x1 (Fin 0))) (run _collect_reference s0).

End Scenario.

(** * Notions the properties are stated with *)


Definition all_empty (d : dict (list sample)) : Prop :=
  forall l, In l (map snd d) -> l = [].

Definition with_reference_n (n : Z) (a : InitArgs) : InitArgs :=
  {| arg_table := arg_table a;
     arg_controller := arg_controller a;
     arg_bar_width := arg_bar_width a;
     arg_color_var := arg_color_var a;
     arg_color_map := arg_color_map a;
     arg_extents := arg_extents a;
     arg_reference_n := n |}.

(** What the sampler owns, [_z] and the colour configuration: everything
    [update] reads or writes outside the two bar series and the zero
    lines. *)
Definition reference_view (s : OrbitDisplay) :=
  (_collecting_reference s, _reference_measurements s, _reference_count s,
   _reference_n s, _x_ref_source s, _y_ref_source s,
   _x_ref_line_color s, _y_ref_line_color s, _z s,
   _color_monitor s, _extents s, _color_map s).


Definition set_reference_n v (s : OrbitDisplay) : OrbitDisplay :=
  {| _z := _z s; _monitor := _monitor s; _controller := _controller s;
     _color_monitor := _color_monitor s; _extents := _extents s;
     _color_map := _color_map s; _bar_width := _bar_width s;
     _x_range := _x_range s; _x_source := _x_source s;
     _y_source := _y_source s;
     _collecting_reference := _collecting_reference s;
     _reference_measurements := _reference_measurements s;
     _reference_n := v; _reference_count := _reference_count s;
     _x_ref_source := _x_ref_source s; _y_ref_source := _y_ref_source s;
     _x_ref_line_color := _x_ref_line_color s;
     _y_ref_line_color := _y_ref_line_color s;
     x_plot_hlines := x_plot_hlines s; y_plot_hlines := y_plot_hlines s |}.

(** The mean of a row's present samples. *)
Definition row_mean (row : string * list sample) : float64 :=
  np_mean (present (snd row)).

(** The reference curve in the words of the specification: the rows of the
    accumulator in their order, each with the z coordinate at its index,
    without the rows whose mean is NaN. *)
Definition reference_rows (z : list float64) (acc : dict (list sample))
  : list (float64 * (string * list sample)) :=
  filter (fun zr => negb (np_isnan (row_mean (snd zr)))) (combine z acc).

Definition positions (rs : list (float64 * (string * list sample)))
  : list float64 := map fst rs.

Definition means (rs : list (float64 * (string * list sample)))
  : list float64 := map (fun zr => row_mean (snd zr)) rs.


(** ** Calls on a constructed object *)

(** The public surface of the class after construction: the periodic
    callback, the two reconfigurations and the two button handlers. *)
Inductive call : Type :=
| CallUpdate (io : Env)
| CallUpdateTable (table : TableVariable)
| CallUpdateColormap (color_var : ScalarVariable) (cmap : list color)
                     (extents : list Z)
| CallCollectReference
| CallResetReference.

Definition do_call (c : call) : M unit :=
  match c with
  | CallUpdate io => update io
  | CallUpdateTable table => update_table table
  | CallUpdateColormap cv cmap extents => update_colormap cv cmap extents
  | CallCollectReference => _collect_reference
  | CallResetReference => _reset_reference
  end.

Definition is_reset (c : call) : bool :=
  match c with CallResetReference => true | _ => false end.

Definition is_collect (c : call) : bool :=
  match c with CallCollectReference => true | _ => false end.

(** The object after a sequence of calls; a call that raises leaves the
    object as it is at the raise and the next call goes on from there. *)
Definition calls (cs : list call) (s : OrbitDisplay) : OrbitDisplay :=
  fold_left (fun s c => run (do_call c) s) cs s.

(** What holds of the sampler and the colour configuration in every state
    the class can reach. *)
Definition class_invariant (n : Z) (s : OrbitDisplay) : Prop :=
  _reference_n s = n
  /\ (_reference_count s <= n)%Z
  /\ _color_monitor s <> Assigned None
  /\ (_color_monitor s <> Unset ->
      _extents s <> Unset /\ _color_map s <> Unset).

Definition with_bar_width (w : option Z) (a : InitArgs) : InitArgs :=
  {| arg_table := arg_table a;
     arg_controller := arg_controller a;
     arg_bar_width := w;
     arg_color_var := arg_color_var a;
     arg_color_map := arg_color_map a;
     arg_extents := arg_extents a;
     arg_reference_n := arg_reference_n a |}.

(** A sequence of cycles, each of which has to return. *)
Fixpoint updates (ios : list Env) (s : OrbitDisplay) : option OrbitDisplay :=
  match ios with
  | [] => Some s
  | io :: ios' =>
      match update io s with
      | (Ok _, s') => updates ios' s'
      | (Raise _, _) => None
      end
  end.

(** Everything the sampler step of [update] leaves alone. *)
Definition static_view (s : OrbitDisplay) :=
  (_z s, _monitor s, _controller s, _color_monitor s, _extents s,
   _color_map s, _bar_width s, _x_range s, _x_source s, _y_source s,
   x_plot_hlines s, y_plot_hlines s, _reference_n s).

(** The bar series [update] publishes for the readings [vs] of one axis,
    labelled with the devices of the X readings. *)
Definition bars_of (z : list float64) (vs : dict sample)
    (devices : list string) (colors : list color) : BarData :=
  {| bar_x := z;
     bar_y := map (fun kv => to_float64 (snd kv)) vs;
     bar_device := devices;
     bar_color := colors |}.

(** * Properties *)

(** ** Colour binning *)








(** ** Dicts of accumulators *)

Lemma dict_set_nil_all_empty (d : dict (list sample)) (k : string) :
  all_empty d -> all_empty (dict_set d k []).
Proof.
  unfold all_empty. induction d as [| [k' v'] d IH]; intros H l Hin.
  - simpl in Hin. destruct Hin as [<- | []]. reflexivity.
  - simpl in Hin. destruct (String.eqb k' k).
    + simpl in Hin. destruct Hin as [<- | Hin]; [reflexivity |].
      apply H. simpl. auto.
    + simpl in Hin. destruct Hin as [<- | Hin].
      * apply H. simpl. auto.
      * apply IH; [| exact Hin]. intros l' Hl'. apply H. simpl. auto.
  Qed.

Lemma empty_lists_all_empty (rows : list string) : all_empty (empty_lists rows).
Proof.
  unfold empty_lists.
  assert (G : forall d, all_empty d ->
                        all_empty (fold_left (fun d r => dict_set d r []) rows d)).
  { induction rows as [| r rows IH]; intros d Hd; simpl; [exact Hd |].
    apply IH. now apply dict_set_nil_all_empty. }
  apply G. intros l [].
Qed.

Lemma clear_lists_all_empty (d : dict (list sample)) : all_empty (clear_lists d).
Proof.
  unfold all_empty, clear_lists. intros l Hin.
  rewrite map_map in Hin. apply in_map_iff in Hin.
  destruct Hin as (kv & <- & _). reflexivity.
Qed.

(** ** Control actions *)

(** C4, as the code has it.  [_reset_reference] always returns; it empties
    the x and y columns of both published reference curves and leaves the
    is-capturing flag, the countdown, the target and every per-device
    accumulator sequence as they were. *)
Theorem reset_reference_clears_curves_only :
  forall s : OrbitDisplay,
    outcome _reset_reference s = Ok tt
    /\ _x_ref_source (run _reset_reference s) = ref_cleared
    /\ _y_ref_source (run _reset_reference s) = ref_cleared
    /\ _collecting_reference (run _reset_reference s) = _collecting_reference s
    /\ _reference_measurements (run _reset_reference s)
       = _reference_measurements s
    /\ _reference_count (run _reset_reference s) = _reference_count s
    /\ _reference_n (run _reset_reference s) = _reference_n s.
Proof. intros s. repeat split. Qed.

(** C4 as stated fails: one cycle into a capture the accumulators hold a
    sample per device, and they still do after [_reset_reference]. *)
Lemma reset_reference_keeps_samples :
  init Scenario.args = Ok Scenario.s0
  /\ outcome (update (Scenario.cycle Scenario.x1 Scenario.x1 (Fin 0)))
             (run _collect_reference Scenario.s0) = Ok tt
  /\ accX (_reference_measurements (run _reset_reference Scenario.mid_capture))
     = [("d0", [Some (Fin 1)]); ("d1", [None]); ("d2", [Some (Fin 3)])]%string
  /\ ~ all_empty
        (accX (_reference_measurements
                 (run _reset_reference Scenario.mid_capture))).
Proof.
  assert (E : accX (_reference_measurements
                      (run _reset_reference Scenario.mid_capture))
              = [("d0", [Some (Fin 1)]); ("d1", [None]);
                 ("d2", [Some (Fin 3)])]%string)
    by (vm_compute; reflexivity).
  split; [vm_compute; reflexivity |]. split; [vm_compute; reflexivity |].
  split; [exact E |].
  rewrite E. intros H. specialize (H [Some (Fin 1)]).
  assert (E' : [Some (Fin 1)] = @nil sample) by (apply H; simpl; auto).
  discriminate E'.
Qed.

(** C5, as the code has it.  [update_table] always returns; the new
    accumulators have an empty sequence per row of the new table (the
    samples of a capture in progress are gone), the x and y columns of both
    published reference curves are emptied, and the is-capturing flag, the
    countdown and the target are left as they were. *)
Theorem update_table_discards_samples_only :
  forall (table : TableVariable) (s : OrbitDisplay),
    outcome (update_table table) s = Ok tt
    /\ _reference_measurements (run (update_table table) s)
       = fresh_measurements table
    /\ all_empty (accX (fresh_measurements table))
    /\ all_empty (accY (fresh_measurements table))
    /\ _z (run (update_table table) s) = z_of_table table
    /\ _monitor (run (update_table table) s) = table
    /\ _x_ref_source (run (update_table table) s)
       = ref_update_xy [] [] (_x_ref_source s)
    /\ _y_ref_source (run (update_table table) s)
       = ref_update_xy [] [] (_y_ref_source s)
    /\ _collecting_reference (run (update_table table) s)
       = _collecting_reference s
    /\ _reference_count (run (update_table table) s) = _reference_count s
    /\ _reference_n (run (update_table table) s) = _reference_n s.
Proof.
  intros table s.
  repeat split; try reflexivity; apply empty_lists_all_empty.
Qed.

(** C5 as stated fails: a table replaced one cycle into a capture of two
    leaves the flag set and the countdown at 1, not at the target 2, and
    the next cycle completes the capture from its single sample. *)
Lemma update_table_keeps_capture_running :
  let s := run (update_table Scenario.table3) Scenario.mid_capture in
  let s' := run (update (Scenario.cycle Scenario.x2 Scenario.x2 (Fin 0))) s in
  init Scenario.args = Ok Scenario.s0
  /\ _collecting_reference Scenario.mid_capture = true
  /\ _collecting_reference s = true
  /\ _reference_count s = 1%Z
  /\ _reference_n s = 2%Z
  /\ outcome (update (Scenario.cycle Scenario.x2 Scenario.x2 (Fin 0))) s = Ok tt
  /\ _collecting_reference s' = false
  /\ ref_x (_x_ref_source s') = [Fin 0; Fin 2]
  /\ ref_y (_x_ref_source s') = [Fin 3; Fin 5].
Proof. vm_compute. repeat split; reflexivity. Qed.

(** ** Construction and configuration *)


(** [init], read off as a case analysis on the checks it makes. *)
Lemma init_ok_inv (a : InitArgs) (s : OrbitDisplay) :
  init a = Ok s ->
  exists cattrs bw mn mx bounds,
    init_color a = Ok cattrs
    /\ init_bar_width a (z_of_table (arg_table a)) = Ok bw
    /\ py_min (z_of_table (arg_table a)) = Ok mn
    /\ py_max (z_of_table (arg_table a)) = Ok mx
    /\ color_bar_bounds (arg_extents a) = Ok bounds
    /\ _color_monitor s = fst (fst cattrs)
    /\ _reference_n s = arg_reference_n a
    /\ _reference_count s = arg_reference_n a
    /\ _collecting_reference s = false.
Proof.
  unfold init, rbind. intros H.
  destruct (init_color a) as [cattrs |]; [| discriminate].
  destruct (init_bar_width a _) as [bw |]; [| discriminate].
  destruct (py_min _) as [mn |]; [| discriminate].
  destruct (py_max _) as [mx |]; [| discriminate].
  destruct (color_bar_bounds _) as [bounds |]; [| discriminate].
  injection H as <-. exists cattrs, bw, mn, mx, bounds.
  repeat split; reflexivity.
Qed.

(** C6 as stated fails: the targets 0 and -3 are accepted. *)
Lemma init_accepts_nonpositive_target :
  match init (with_reference_n 0 Scenario.args) with
  | Ok s => _reference_n s = 0%Z /\ _reference_count s = 0%Z
  | Raise _ => False
  end
  /\ match init (with_reference_n (-3) Scenario.args) with
     | Ok s => _reference_n s = (-3)%Z /\ _reference_count s = (-3)%Z
     | Raise _ => False
     end.
Proof. vm_compute. repeat split; reflexivity. Qed.

Lemma init_without_color_var (a : InitArgs) (s : OrbitDisplay) :
  arg_color_var a = None ->
  init a = Ok s ->
  _color_monitor s = Unset /\ _extents s = Unset /\ _color_map s = Unset.
Proof.
  unfold init, rbind, init_color. intros -> H.
  destruct (init_bar_width a _); [| discriminate].
  destruct (py_min _); [| discriminate].
  destruct (py_max _); [| discriminate].
  destruct (color_bar_bounds _); [| discriminate].
  injection H as <-. repeat split.
Qed.

(** C10.  With [color_var = None] the constructor still needs [extents]:
    with [extents = None] it raises (TypeError at [extents[0]], or
    ValueError earlier when the table has no row), and whenever it returns,
    [extents] was a list of at least two entries, while the object has no
    colour monitor. *)
Theorem init_requires_extents :
  forall a : InitArgs,
    arg_color_var a = None ->
    (arg_extents a = None ->
     init a = Raise (match z_of_table (arg_table a) with
                     | [] => ValueError
                     | _ :: _ => TypeError
                     end))
    /\ (forall s, init a = Ok s ->
                  _color_monitor s = Unset
                  /\ exists e, arg_extents a = Some e /\ (2 <= length e)%nat).
Proof.
  intros a Hcv. split.
  - intros He. unfold init, rbind, init_color, init_bar_width, rbind.
    rewrite Hcv, He.
    destruct (z_of_table (arg_table a)) as [| z0 zs].
    + destruct (arg_bar_width a) as [[| w | w] |]; reflexivity.
    + destruct (arg_bar_width a) as [[| w | w] |]; reflexivity.
  - intros s H. split.
    + now apply (init_without_color_var a).
    + apply init_ok_inv in H.
      destruct H as (cattrs & bw & mn & mx & bounds & _ & _ & _ & _ & Hb & _).
      unfold color_bar_bounds in Hb.
      destruct (arg_extents a) as [e |]; [| discriminate].
      exists e. split; [reflexivity |].
      destruct e as [| e0 [| e1 e]]; simpl in Hb; try discriminate.
      simpl. lia.
Qed.

Lemma init_requires_extents_witness :
  let a := {| arg_table := Scenario.table3;
              arg_controller := "controller"%string;
              arg_bar_width := None;
              arg_color_var := None;
              arg_color_map := None;
              arg_extents := None;
              arg_reference_n := 15 |} in
  init a = Raise TypeError
  /\ (forall s, init a = Ok s ->
                _color_monitor s = Unset
                /\ exists e, arg_extents a = Some e /\ (2 <= length e)%nat).
Proof.
  intros a.
  destruct (init_requires_extents a eq_refl) as [H1 H2].
  split; [exact (H1 eq_refl) | exact H2].
Defined.

(** ** [update] without a colour signal *)

Lemma update_unset_color_monitor (io : Env) (vals : Vals) (s : OrbitDisplay) :
  monitor_poll io = Ok vals ->
  _color_monitor s = Unset ->
  update io s = (Raise AttributeError, s).
Proof.
  intros Hp Hc. unfold update, bind, lift, pick_colors, bind, getattr.
  rewrite Hp, Hc. reflexivity.
Qed.

(** C8, what the code does instead.  An object constructed without a colour
    signal has no [_color_monitor] attribute at all, so every [update] whose
    table poll returns raises AttributeError at the test
    [self._color_monitor is not None] and changes nothing: the default
    colour branch is never reached. *)
Theorem update_without_color_signal_raises :
  forall (a : InitArgs) (s : OrbitDisplay) (io : Env) (vals : Vals),
    arg_color_var a = None ->
    init a = Ok s ->
    monitor_poll io = Ok vals ->
    update io s = (Raise AttributeError, s).
Proof.
  intros a s io vals Hcv Hinit Hp.
  destruct (init_without_color_var a Hcv Hinit) as [Hm _].
  now apply update_unset_color_monitor with (vals := vals).
Qed.

Lemma update_without_color_signal_raises_witness :
  let a := {| arg_table := Scenario.table3;
              arg_controller := "controller"%string;
              arg_bar_width := None;
              arg_color_var := None;
              arg_color_map := None;
              arg_extents := Some [Fin 0; Fin 1; Fin 2];
              arg_reference_n := 2 |} in
  let s := set_color_monitor Unset
             (set_extents Unset (set_color_map Unset Scenario.s0)) in
  let io := {| monitor_poll :=
                 Ok {| valsX := Scenario.x1; valsY := Scenario.x1 |};
               color_monitor_poll := Raise FetchError |} in
  init a = Ok s /\ update io s = (Raise AttributeError, s).
Proof.
  intros a s io.
  assert (Hinit : init a = Ok s) by (vm_compute; reflexivity).
  split; [exact Hinit |].
  exact (update_without_color_signal_raises a io eq_refl Hinit eq_refl).
Defined.

(** ** Colour reconfiguration *)

(** [update_colormap], case by case: what it returns or raises and the
    object it leaves. *)
Lemma update_colormap_cases
    (cv : ScalarVariable) (cmap : list color) (extents : list Z)
    (s : OrbitDisplay) :
  update_colormap cv cmap extents s
  = match extents with
    | lo :: hi :: _ =>
        match py_range lo hi (length cmap) with
        | Ok r =>
            (Ok tt,
             set_color_monitor (Assigned (Some cv))
               (set_extents (Assigned (map float_of_int r))
                  (set_color_map (Assigned cmap) s)))
        | Raise e => (Raise e, set_color_map (Assigned cmap) s)
        end
    | _ => (Raise IndexError, set_color_map (Assigned cmap) s)
    end.
Proof.
  unfold update_colormap, bind, modify, lift, getattr, list_index.
  destruct extents as [| lo [| hi rest]]; reflexivity.
Qed.




(** ** The steps of [update], case by case *)

Lemma pick_colors_pure (io : Env) (vals : Vals) (s : OrbitDisplay) :
  snd (pick_colors io vals s) = s.
Proof.
  unfold pick_colors, bind, getattr, lift, ret.
  destruct (_color_monitor s) as [| [cv |]]; try reflexivity.
  destruct (color_monitor_poll io) as [color_val |]; try reflexivity.
  destruct (_extents s) as [| extents]; try reflexivity.
  destruct (bin_index extents color_val) as [idx |]; try reflexivity.
  destruct (_color_map s) as [| cmap]; try reflexivity.
  destruct (list_index cmap idx); reflexivity.
Qed.


Lemma complete_reference_cases (color : option color) (s : OrbitDisplay) :
  complete_reference color s
  = let s1 := set_collecting_reference false s in
    let x_mean := axis_means (accX (_reference_measurements s)) in
    let y_mean := axis_means (accY (_reference_measurements s)) in
    match line_z (_z s) 0 x_mean with
    | Raise e => (Raise e, s1)
    | Ok x_line_z =>
        match line_z (_z s) 0 y_mean with
        | Raise e => (Raise e, s1)
        | Ok y_line_z =>
            let s2 :=
              set_reference_count (_reference_n s)
                (set_accY (clear_lists (accY (_reference_measurements s)))
                   (set_accX (clear_lists (accX (_reference_measurements s)))
                      s1)) in
            match color with
            | None => (Raise UnboundLocalError, s2)
            | Some c =>
                (Ok tt,
                 set_y_ref_source
                   (ref_update_xy y_line_z (drop_nan y_mean) (_y_ref_source s))
                   (set_x_ref_source
                      (ref_update_xy x_line_z (drop_nan x_mean)
                         (_x_ref_source s))
                      (set_y_ref_line_color (Some c)
                         (set_x_ref_line_color (Some c) s2))))
            end
        end
    end.
Proof.
  unfold complete_reference, bind, modify, gets, lift. cbn.
  destruct (line_z (_z s) 0 (axis_means (accX (_reference_measurements s))));
    [| reflexivity].
  destruct (line_z (_z s) 0 (axis_means (accY (_reference_measurements s))));
    [| reflexivity].
  destruct color; reflexivity.
Qed.

Lemma collect_step_cases (vals : Vals) (color : option color)
    (s : OrbitDisplay) :
  collect_step vals color s
  = if _collecting_reference s then
      let s1 := set_reference_count (_reference_count s - 1)%Z s in
      match append_samples (valsX vals) (accX (_reference_measurements s)) with
      | (Raise e, ax) => (Raise e, set_accX ax s1)
      | (Ok _, ax) =>
          match append_samples (valsY vals) (accY (_reference_measurements s)) with
          | (Raise e, ay) => (Raise e, set_accY ay (set_accX ax s1))
          | (Ok _, ay) =>
              if (_reference_count s - 1 =? 0)%Z
              then complete_reference color (set_accY ay (set_accX ax s1))
              else (Ok tt, set_accY ay (set_accX ax s1))
          end
      end
    else (Ok tt, s).
Proof.
  unfold collect_step, bind, gets, modify, append_X, append_Y, ret.
  destruct (_collecting_reference s); [| reflexivity].
  cbn -[complete_reference Z.eqb Z.sub].
  destruct (append_samples (valsX vals) _) as [[[] | e] ax]; [| reflexivity].
  cbn -[complete_reference Z.eqb Z.sub].
  destruct (append_samples (valsY vals) _) as [[[] | e] ay]; [| reflexivity].
  cbn -[complete_reference Z.eqb Z.sub].
  destruct (_reference_count s - 1 =? 0)%Z; reflexivity.
Qed.

Lemma publish_raw_view (vals : Vals) (colors : list color) (s : OrbitDisplay) :
  reference_view (snd (publish_raw vals colors s)) = reference_view s.
Proof.
  unfold publish_raw, bind, lift, modify, ret.
  destruct (zero_inside _) as [[|] |]; try reflexivity;
    cbn; destruct (zero_inside _) as [[|] |]; reflexivity.
Qed.

(** What [publish_raw] returns or raises depends on the readings only. *)
Lemma publish_raw_outcome (vals : Vals) (colors : list color)
    (s s' : OrbitDisplay) :
  fst (publish_raw vals colors s) = fst (publish_raw vals colors s').
Proof.
  unfold publish_raw, bind, lift, modify, ret.
  destruct (zero_inside _) as [[|] |]; try reflexivity;
    cbn; destruct (zero_inside _) as [[|] |]; reflexivity.
Qed.



(** [update] once the two polls and the binning have gone through. *)
Lemma update_after_fetch (io : Env) (vals : Vals) (s : OrbitDisplay) cc :
  monitor_poll io = Ok vals ->
  fst (pick_colors io vals s) = Ok cc ->
  update io s
  = match collect_step vals (fst cc) s with
    | (Ok _, s1) => publish_raw vals (snd cc) s1
    | (Raise e, s1) => (Raise e, s1)
    end.
Proof.
  intros Hp Hc. unfold update, bind, lift. rewrite Hp.
  pose proof (pick_colors_pure io vals s) as Hs.
  destruct (pick_colors io vals s) as [r s1]. simpl in Hc, Hs. subst r s1.
  destruct (collect_step vals (fst cc) s) as [[[] |] s1]; reflexivity.
Qed.

(** A failure of a poll or of the binning: nothing has been written. *)
Lemma update_fetch_failure (io : Env) (s : OrbitDisplay) :
  (exists e, monitor_poll io = Raise e /\ update io s = (Raise e, s))
  \/ (exists vals e,
         monitor_poll io = Ok vals
         /\ fst (pick_colors io vals s) = Raise e
         /\ update io s = (Raise e, s))
  \/ (exists vals cc,
         monitor_poll io = Ok vals
         /\ fst (pick_colors io vals s) = Ok cc).
Proof.
  destruct (monitor_poll io) as [vals | e] eqn:Hp.
  - right. destruct (fst (pick_colors io vals s)) as [cc | e] eqn:Hc.
    + right. exists vals, cc. auto.
    + left. exists vals, e. split; [reflexivity | split; [exact Hc |]].
      unfold update, bind, lift. rewrite Hp.
      pose proof (pick_colors_pure io vals s) as Hs.
      destruct (pick_colors io vals s) as [r s1]. simpl in Hc, Hs.
      subst r s1. reflexivity.
  - left. exists e. split; [reflexivity |].
    unfold update, bind, lift. rewrite Hp. reflexivity.
Qed.

(** ** Appending a cycle's readings *)

Lemma dict_get_in_keys {V} (d : dict V) (k : string) :
  In k (keys d) -> exists v, dict_get d k = Some v.
Proof.
  induction d as [| [k' v'] d IH]; simpl; [intros [] |].
  intros [-> | Hin].
  - rewrite String.eqb_refl. eauto.
  - destruct (String.eqb k' k); eauto.
Qed.

Lemma keys_dict_set_known {V} (d : dict V) (k : string) (v v' : V) :
  dict_get d k = Some v -> keys (dict_set d k v') = keys d.
Proof.
  induction d as [| [k0 v0] d IH]; simpl; [discriminate |].
  destruct (String.eqb k0 k); intros H; simpl; [reflexivity |].
  f_equal. now apply IH.
Qed.

Lemma append_samples_keys (vs : dict sample) :
  forall acc, keys (snd (append_samples vs acc)) = keys acc.
Proof.
  induction vs as [| [device v] vs IH]; intros acc; simpl; [reflexivity |].
  destruct (dict_get acc device) as [l |] eqn:Hg; [| reflexivity].
  rewrite IH. now apply keys_dict_set_known with (v := l).
Qed.

Lemma append_samples_length (vs : dict sample) (acc : dict (list sample)) :
  length (snd (append_samples vs acc)) = length acc.
Proof.
  rewrite <- (length_map fst), <- (length_map fst acc).
  exact (f_equal (@length string) (append_samples_keys vs acc)).
Qed.

Lemma append_samples_ok (vs : dict sample) :
  forall acc,
    incl (keys vs) (keys acc) -> fst (append_samples vs acc) = Ok tt.
Proof.
  induction vs as [| [device v] vs IH]; intros acc Hincl; simpl;
    [reflexivity |].
  destruct (@dict_get_in_keys _ acc device) as [l Hg].
  { apply Hincl. simpl. auto. }
  rewrite Hg. apply IH. intros k Hk.
  rewrite (keys_dict_set_known acc device (l ++ [v]) Hg).
  apply Hincl. simpl. auto.
Qed.



(** ** Failures of [update] *)





(** ** The capture target *)

Lemma update_outcome (io : Env) (s : OrbitDisplay) :
  outcome (update io) s
  = match monitor_poll io with
    | Raise e => Raise e
    | Ok vals =>
        match fst (pick_colors io vals s) with
        | Raise e => Raise e
        | Ok cc =>
            match fst (collect_step vals (fst cc) s) with
            | Raise e => Raise e
            | Ok _ => fst (publish_raw vals (snd cc) s)
            end
        end
    end.
Proof.
  unfold outcome.
  destruct (update_fetch_failure io s)
    as [(e0 & Hp & Hu) | [(vals & e0 & Hp & Hc & Hu) | (vals & cc & Hp & Hc)]].
  - rewrite Hu, Hp. reflexivity.
  - rewrite Hu, Hp, Hc. reflexivity.
  - rewrite (update_after_fetch io s Hp Hc), Hp, Hc.
    destruct (collect_step vals (fst cc) s) as [[[] | e] s1]; [| reflexivity].
    apply publish_raw_outcome.
Qed.

Lemma pick_colors_any_target (io : Env) (vals : Vals) (n : Z)
    (s : OrbitDisplay) :
  fst (pick_colors io vals (set_reference_n n s))
  = fst (pick_colors io vals s).
Proof.
  unfold pick_colors, bind, getattr, lift, ret.
  change (_color_monitor (set_reference_n n s)) with (_color_monitor s).
  destruct (_color_monitor s) as [| [cv |]]; try reflexivity.
  destruct (color_monitor_poll io) as [color_val |]; try reflexivity.
  change (_extents (set_reference_n n s)) with (_extents s).
  destruct (_extents s) as [| extents]; try reflexivity.
  destruct (bin_index extents color_val) as [idx |]; try reflexivity.
  change (_color_map (set_reference_n n s)) with (_color_map s).
  destruct (_color_map s) as [| cmap]; try reflexivity.
  destruct (list_index cmap idx); reflexivity.
Qed.

Lemma collect_step_any_target (vals : Vals) (color : option color) (n : Z)
    (s : OrbitDisplay) :
  fst (collect_step vals color (set_reference_n n s))
  = fst (collect_step vals color s).
Proof.
  rewrite !collect_step_cases.
  cbn -[append_samples complete_reference Z.eqb Z.sub].
  destruct (_collecting_reference s); [| reflexivity].
  destruct (append_samples (valsX vals) _) as [[[] | e] ax]; [| reflexivity].
  destruct (append_samples (valsY vals) _) as [[[] | e] ay]; [| reflexivity].
  destruct (_reference_count s - 1 =? 0)%Z; [| reflexivity].
  rewrite !complete_reference_cases.
  cbn -[axis_means line_z clear_lists drop_nan].
  destruct (line_z (_z s) 0 (axis_means ax)); [| reflexivity].
  destruct (line_z (_z s) 0 (axis_means ay)); [| reflexivity].
  destruct color; reflexivity.
Qed.

(** With the countdown at or below zero a cycle cannot complete a
    capture. *)
Lemma collect_step_nonpositive (vals : Vals) (color : option color)
    (s : OrbitDisplay) :
  (_reference_count s <= 0)%Z ->
  (_reference_count (snd (collect_step vals color s)) <= 0)%Z
  /\ _collecting_reference (snd (collect_step vals color s))
     = _collecting_reference s
  /\ _x_ref_source (snd (collect_step vals color s)) = _x_ref_source s
  /\ _y_ref_source (snd (collect_step vals color s)) = _y_ref_source s.
Proof.
  intros Hc. rewrite collect_step_cases.
  destruct (_collecting_reference s) eqn:Hcol; [| simpl; auto].
  cbv zeta.
  destruct (append_samples (valsX vals) _) as [[[] | e] ax];
    [| simpl; repeat split; auto; lia].
  destruct (append_samples (valsY vals) _) as [[[] | e] ay];
    [| simpl; repeat split; auto; lia].
  destruct (_reference_count s - 1 =? 0)%Z eqn:E.
  - apply Z.eqb_eq in E. lia.
  - simpl. repeat split; auto; lia.
Qed.

Lemma update_steps (io : Env) (s : OrbitDisplay) :
  run (update io) s = s
  \/ exists (vals : Vals) (cc : option color * list color),
       reference_view (run (update io) s)
       = reference_view (snd (collect_step vals (fst cc) s)).
Proof.
  unfold run.
  destruct (update_fetch_failure io s)
    as [(e0 & Hp & Hu) | [(vals & e0 & Hp & Hc & Hu) | (vals & cc & Hp & Hc)]].
  - left. now rewrite Hu.
  - left. now rewrite Hu.
  - right. exists vals, cc. rewrite (update_after_fetch io s Hp Hc).
    destruct (collect_step vals (fst cc) s) as [[[] | e] s1]; [| reflexivity].
    apply publish_raw_view.
Qed.

(** C6, as the code has it.  The constructor never looks at the capture
    target: whether it returns or raises, and what it raises, is the same
    for every integer target, zero and negatives included, and the object
    it returns has that integer as target and as countdown and is not
    capturing.  [update] does not look at it either: what it returns or
    raises is the same whatever the target is.  With the countdown at or
    below zero, as it is from a target at or below zero, an [update] never
    completes a capture: the countdown stays at or below zero and the flag
    and both published reference curves stay as they are. *)
Theorem init_accepts_any_reference_n :
  (forall (a : InitArgs) (n : Z),
      match init a, init (with_reference_n n a) with
      | Ok _, Ok s' =>
          _reference_n s' = n
          /\ _reference_count s' = n
          /\ _collecting_reference s' = false
      | Raise e, Raise e' => e = e'
      | _, _ => False
      end)
  /\ (forall (io : Env) (s : OrbitDisplay) (n : Z),
         outcome (update io) (set_reference_n n s) = outcome (update io) s)
  /\ (forall (io : Env) (s : OrbitDisplay),
         (_reference_count s <= 0)%Z ->
         (_reference_count (run (update io) s) <= 0)%Z
         /\ _collecting_reference (run (update io) s) = _collecting_reference s
         /\ _x_ref_source (run (update io) s) = _x_ref_source s
         /\ _y_ref_source (run (update io) s) = _y_ref_source s).
Proof.
  split; [| split].
  - intros a n. unfold init, rbind.
    change (init_color (with_reference_n n a)) with (init_color a).
    change (init_bar_width (with_reference_n n a)) with (init_bar_width a).
    cbn [with_reference_n arg_table arg_extents arg_reference_n].
    destruct (init_color a); [| reflexivity].
    destruct (init_bar_width a _); [| reflexivity].
    destruct (py_min _); [| reflexivity].
    destruct (py_max _); [| reflexivity].
    destruct (color_bar_bounds _); [| reflexivity].
    repeat split.
  - intros io s n. rewrite !update_outcome.
    destruct (monitor_poll io) as [vals |]; [| reflexivity].
    rewrite pick_colors_any_target.
    destruct (fst (pick_colors io vals s)) as [cc |]; [| reflexivity].
    rewrite collect_step_any_target.
    destruct (fst (collect_step vals (fst cc) s)); [| reflexivity].
    apply publish_raw_outcome.
  - intros io s Hc.
    destruct (update_steps io s) as [-> | (vals & cc & Hv)].
    + repeat split; auto.
    + destruct (collect_step_nonpositive vals (fst cc) s Hc)
        as (H1 & H2 & H3 & H4).
      unfold reference_view in Hv.
      injection Hv as Ecol Eacc Ecount En Ex Ey _ _ _ _ _ _.
      rewrite Ecol, Ecount, Ex, Ey. auto.
Qed.

Lemma init_accepts_any_reference_n_witness :
  let io := Scenario.cycle Scenario.x1 Scenario.x1 (Fin 0) in
  let s := run _collect_reference (set_reference_count 0 Scenario.s0) in
  (_reference_count (run (update io) s) <= 0)%Z
  /\ _collecting_reference (run (update io) s) = true
  /\ _x_ref_source (run (update io) s) = no_ref
  /\ _y_ref_source (run (update io) s) = no_ref.
Proof.
  intros io s.
  refine (proj2 (proj2 init_accepts_any_reference_n) io s _).
  vm_compute. discriminate.
Defined.

(** ** A completed capture window *)

Lemma skipn_S_tl {A} (i : nat) :
  forall l : list A, skipn (S i) l = tl (skipn i l).
Proof.
  induction i as [| i IH]; intros [| a l]; try reflexivity.
  change (skipn (S (S i)) (a :: l)) with (skipn (S i) l).
  change (skipn (S i) (a :: l)) with (skipn i l). apply IH.
Qed.

Lemma skipn_nth_error {A} (i : nat) :
  forall (l : list A) (a : A),
    nth_error l i = Some a -> skipn i l = a :: skipn (S i) l.
Proof.
  induction i as [| i IH]; intros [| b l] a H; try discriminate.
  - simpl in H. injection H as ->. reflexivity.
  - simpl in H. change (skipn (S i) (b :: l)) with (skipn i l).
    change (skipn (S (S i)) (b :: l)) with (skipn (S i) l). now apply IH.
Qed.

Lemma reference_rows_nan (zz : list float64) row (acc : dict (list sample)) :
  np_isnan (row_mean row) = true ->
  reference_rows zz (row :: acc) = reference_rows (tl zz) acc.
Proof.
  intros H. unfold reference_rows. destruct zz as [| zi zz]; simpl.
  - reflexivity.
  - rewrite H. reflexivity.
Qed.

Lemma reference_rows_kept (zi : float64) (zz : list float64) row
    (acc : dict (list sample)) :
  np_isnan (row_mean row) = false ->
  reference_rows (zi :: zz) (row :: acc) = (zi, row) :: reference_rows zz acc.
Proof. intros H. unfold reference_rows. simpl. rewrite H. reflexivity. Qed.

(** The two comprehensions of lines 220-222 compute that curve. *)
Lemma line_z_reference_rows (acc : dict (list sample)) :
  forall (z : list float64) (i : nat) (zx : list float64),
    line_z z i (axis_means acc) = Ok zx ->
    zx = positions (reference_rows (skipn i z) acc)
    /\ drop_nan (axis_means acc) = means (reference_rows (skipn i z) acc).
Proof.
  induction acc as [| row acc IH]; intros z i zx H.
  - simpl in H. injection H as <-.
    unfold reference_rows. rewrite combine_nil. split; reflexivity.
  - cbn [axis_means map line_z] in H. fold (row_mean row) in H.
    fold (axis_means acc) in H.
    cbn [axis_means map drop_nan filter]. fold (row_mean row).
    fold (axis_means acc). fold (drop_nan (axis_means acc)).
    destruct (np_isnan (row_mean row)) eqn:Hnan.
    + rewrite reference_rows_nan by exact Hnan. rewrite <- skipn_S_tl.
      cbn [negb]. now apply IH.
    + unfold list_index in H.
      destruct (nth_error z i) as [zi |] eqn:Hz; [| discriminate].
      cbn [rbind] in H.
      destruct (line_z z (S i) (axis_means acc)) as [rest |] eqn:Hrest;
        [| discriminate].
      cbn [rbind] in H. injection H as <-.
      rewrite (skipn_nth_error i z Hz).
      rewrite reference_rows_kept by exact Hnan.
      destruct (IH z (S i) rest Hrest) as [-> Hm].
      cbn [negb]. rewrite Hm. split; reflexivity.
Qed.

(** What a cycle that ends the window leaves, read off [collect_step]. *)
Lemma collect_step_completion (vals : Vals) (color : option color)
    (s s' : OrbitDisplay) :
  _collecting_reference s = true ->
  _reference_count s = 1%Z ->
  collect_step vals color s = (Ok tt, s') ->
  exists ax ay,
    append_samples (valsX vals) (accX (_reference_measurements s)) = (Ok tt, ax)
    /\ append_samples (valsY vals) (accY (_reference_measurements s))
       = (Ok tt, ay)
    /\ line_z (_z s) 0 (axis_means ax) = Ok (ref_x (_x_ref_source s'))
    /\ ref_y (_x_ref_source s') = drop_nan (axis_means ax)
    /\ line_z (_z s) 0 (axis_means ay) = Ok (ref_x (_y_ref_source s'))
    /\ ref_y (_y_ref_source s') = drop_nan (axis_means ay)
    /\ _collecting_reference s' = false
    /\ _reference_count s' = _reference_n s
    /\ _reference_measurements s'
       = {| accX := clear_lists ax; accY := clear_lists ay |}.
Proof.
  intros Hcol Hcount. rewrite collect_step_cases, Hcol, Hcount. cbv zeta.
  destruct (append_samples (valsX vals) _) as [[[] | e] ax]; [| discriminate].
  destruct (append_samples (valsY vals) _) as [[[] | e] ay]; [| discriminate].
  change (1 - 1 =? 0)%Z with true. cbv iota.
  rewrite complete_reference_cases.
  cbn -[axis_means line_z clear_lists drop_nan].
  destruct (line_z (_z s) 0 (axis_means ax)) as [zx |] eqn:Hzx;
    [| discriminate].
  destruct (line_z (_z s) 0 (axis_means ay)) as [zy |] eqn:Hzy;
    [| discriminate].
  destruct color as [c |]; [| discriminate].
  intros H. injection H as <-. exists ax, ay.
  repeat split; assumption.
Qed.

(** ** When [update] returns *)

Lemma argmin_scan_bound (ip : list float64) :
  forall (mp : float64) (mi i : nat),
    (mi < i)%nat -> (argmin_scan mp mi i ip < i + length ip)%nat.
Proof.
  induction ip as [| x ip IH]; intros mp mi i Hlt; simpl; [lia |].
  destruct (float_ge x mp).
  - specialize (IH mp mi (S i)). lia.
  - destruct (np_isnan x); [lia |].
    specialize (IH x i (S i)). lia.
Qed.

Lemma np_argmin_bound (a : list float64) (idx : nat) :
  np_argmin a = Ok idx -> (idx < length a)%nat.
Proof.
  destruct a as [| mp rest]; simpl; [discriminate |].
  destruct (np_isnan mp); intros H; injection H as <-; [lia |].
  pose proof (argmin_scan_bound rest mp (mi := 0) (i := 1)). lia.
Qed.

Lemma bin_index_ok (extents : list float64) (v : float64) :
  extents <> [] ->
  exists idx, bin_index extents (Some v) = Ok idx /\ (idx < length extents)%nat.
Proof.
  intros Hne. unfold bin_index.
  destruct (np_argmin (map (fun e => np_abs (float_sub e v)) extents))
    as [idx |] eqn:H.
  - exists idx. split; [destruct extents; reflexivity |].
    apply np_argmin_bound in H. now rewrite length_map in H.
  - destruct extents; [congruence |]. simpl in H.
    destruct (np_isnan _); discriminate.
Qed.

(** With a colour signal, non-empty extents and a colour for every bin,
    one colour is bound and given to every device. *)
Lemma pick_colors_ok (io : Env) (vals : Vals) (s : OrbitDisplay)
    (m : ScalarVariable) (extents : list float64) (cmap : list color)
    (cv : float64) :
  _color_monitor s = Assigned (Some m) ->
  _extents s = Assigned extents ->
  _color_map s = Assigned cmap ->
  extents <> [] ->
  (length extents <= length cmap)%nat ->
  color_monitor_poll io = Ok (Some cv) ->
  exists c, fst (pick_colors io vals s)
            = Ok (Some c, map (fun _ => c) (valsX vals)).
Proof.
  intros Hm He Hc Hne Hlen Hp.
  unfold pick_colors, bind, getattr, lift, ret.
  rewrite Hm, Hp, He.
  destruct (bin_index_ok cv Hne) as (idx & -> & Hidx).
  rewrite Hc. unfold list_index.
  destruct (nth_error cmap idx) as [c |] eqn:Hn.
  - exists c. reflexivity.
  - apply nth_error_None in Hn. lia.
Qed.


(** A cycle of a capture that does not end the window. *)
Lemma update_accumulates (io : Env) (s s' : OrbitDisplay) :
  _collecting_reference s = true ->
  _reference_count s <> 1%Z ->
  update io s = (Ok tt, s') ->
  exists vals ax ay,
    monitor_poll io = Ok vals
    /\ append_samples (valsX vals) (accX (_reference_measurements s))
       = (Ok tt, ax)
    /\ append_samples (valsY vals) (accY (_reference_measurements s))
       = (Ok tt, ay)
    /\ reference_view s'
       = reference_view
           (set_accY ay
              (set_accX ax
                 (set_reference_count (_reference_count s - 1)%Z s))).
Proof.
  intros Hcol Hcount Hu.
  destruct (update_fetch_failure io s)
    as [(e0 & _ & Hu') | [(vals & e0 & _ & _ & Hu') | (vals & cc & Hp & Hc)]];
    try congruence.
  rewrite (update_after_fetch io s Hp Hc) in Hu.
  rewrite collect_step_cases, Hcol in Hu. cbv zeta in Hu.
  exists vals.
  destruct (append_samples (valsX vals) _) as [[[] | e] ax];
    [| discriminate].
  destruct (append_samples (valsY vals) _) as [[[] | e] ay];
    [| discriminate].
  exists ax, ay. split; [exact Hp |]. split; [reflexivity |].
  split; [reflexivity |].
  destruct (_reference_count s - 1 =? 0)%Z eqn:E.
  - apply Z.eqb_eq in E. lia.
  - pose proof (publish_raw_view vals (snd cc)
                  (set_accY ay
                     (set_accX ax
                        (set_reference_count (_reference_count s - 1)%Z s))))
      as Hv.
    rewrite Hu in Hv. exact Hv.
Qed.

(** The cycle that ends the window publishes the reference curve of the
    accumulators as they are after the cycle's readings were appended. *)
Lemma update_completion (io : Env) (s s' : OrbitDisplay) :
  _collecting_reference s = true ->
  _reference_count s = 1%Z ->
  update io s = (Ok tt, s') ->
  exists vals ax ay,
    monitor_poll io = Ok vals
    /\ append_samples (valsX vals) (accX (_reference_measurements s))
       = (Ok tt, ax)
    /\ append_samples (valsY vals) (accY (_reference_measurements s))
       = (Ok tt, ay)
    /\ ref_x (_x_ref_source s') = positions (reference_rows (_z s) ax)
    /\ ref_y (_x_ref_source s') = means (reference_rows (_z s) ax)
    /\ ref_x (_y_ref_source s') = positions (reference_rows (_z s) ay)
    /\ ref_y (_y_ref_source s') = means (reference_rows (_z s) ay)
    /\ _collecting_reference s' = false
    /\ _reference_count s' = _reference_n s
    /\ _reference_measurements s'
       = {| accX := clear_lists ax; accY := clear_lists ay |}.
Proof.
  intros Hcol Hcount Hu.
  destruct (update_fetch_failure io s)
    as [(e0 & _ & Hu') | [(vals & e0 & _ & _ & Hu') | (vals & cc & Hp & Hc)]];
    try congruence.
  rewrite (update_after_fetch io s Hp Hc) in Hu.
  destruct (collect_step vals (fst cc) s) as [[[] | e] s1] eqn:Hstep;
    [| discriminate].
  destruct (collect_step_completion vals (fst cc) s Hcol Hcount Hstep)
    as (ax & ay & Hax & Hay & Hzx & Hmx & Hzy & Hmy & Hc' & Hn & Hacc).
  pose proof (publish_raw_view vals (snd cc) s1) as Hv.
  rewrite Hu in Hv. unfold reference_view in Hv. cbn [snd] in Hv.
  injection Hv as Ecol Eacc Ecount En Ex Ey _ _ _ _ _ _.
  destruct (line_z_reference_rows ax (_z s) 0 Hzx) as [Hpx Hqx].
  destruct (line_z_reference_rows ay (_z s) 0 Hzy) as [Hpy Hqy].
  cbn [skipn] in Hpx, Hqx, Hpy, Hqy.
  exists vals, ax, ay. rewrite Ex, Ey, Ecol, Ecount, Eacc.
  repeat split; congruence.
Qed.




(** ** The mean is the arithmetic mean *)



(** ** The scenario, cycle by cycle *)






(** * Further properties of the class *)

(** ** The constructor *)





(** ** Rows and accumulators *)

Lemma keys_dict_set_new {V} (d : dict V) (k : string) (v : V) :
  ~ In k (keys d) -> keys (dict_set d k v) = keys d ++ [k].
Proof.
  induction d as [| [k0 v0] d IH]; simpl; [reflexivity |].
  intros Hn. destruct (String.eqb_spec k0 k) as [-> | Hne].
  - exfalso. apply Hn. auto.
  - simpl. f_equal. apply IH. intros Hin. apply Hn. auto.
Qed.

Lemma keys_dict_set_cases {V} (d : dict V) (k : string) (v : V) :
  (In k (keys d) /\ keys (dict_set d k v) = keys d)
  \/ (~ In k (keys d) /\ keys (dict_set d k v) = keys d ++ [k]).
Proof.
  destruct (in_dec string_dec k (keys d)) as [Hin | Hn].
  - left. split; [exact Hin |].
    destruct (dict_get_in_keys d k Hin) as [v0 Hg].
    now apply keys_dict_set_known with (v := v0).
  - right. split; [exact Hn |]. now apply keys_dict_set_new.
Qed.

Lemma empty_lists_keys (rows : list string) :
  NoDup (keys (empty_lists rows))
  /\ (forall r, In r (keys (empty_lists rows)) <-> In r rows).
Proof.
  unfold empty_lists.
  assert (G : forall (d : dict (list sample)),
             NoDup (keys d) ->
             NoDup (keys (fold_left (fun d r => dict_set d r []) rows d))
             /\ (forall r,
                    In r (keys (fold_left (fun d r => dict_set d r []) rows d))
                    <-> In r (keys d) \/ In r rows)).
  { induction rows as [| r0 rows IH]; intros d Hd; simpl.
    - split; [exact Hd | intros r; tauto].
    - destruct (keys_dict_set_cases d r0 (@nil sample)) as [[Hin E] | [Hn E]].
      + destruct (IH (dict_set d r0 [])) as [H1 H2]; [now rewrite E |].
        split; [exact H1 |]. intros r. rewrite H2, E.
        split; [tauto |]. intros [H | [<- | H]]; auto.
      + destruct (IH (dict_set d r0 [])) as [H1 H2].
        { rewrite E. apply NoDup_app; [exact Hd | | ].
          - constructor; [intros [] | constructor].
          - intros x Hx [<- | []]. contradiction. }
        split; [exact H1 |]. intros r. rewrite H2, E, in_app_iff. simpl.
        tauto. }
  destruct (G []) as [H1 H2]; [constructor |].
  split; [exact H1 |]. intros r. rewrite H2. simpl. tauto.
Qed.

(** X2.  A freshly constructed object is not capturing, has the target as
    countdown, has published nothing, holds the z coordinates of the table
    in table order, and has on each axis one empty accumulator per distinct
    row name of the table. *)
Theorem init_state :
  forall (a : InitArgs) (s : OrbitDisplay),
    init a = Ok s ->
    _collecting_reference s = false
    /\ _reference_count s = arg_reference_n a
    /\ _reference_n s = arg_reference_n a
    /\ _z s = map snd (table_data_Z (arg_table a))
    /\ _x_source s = no_bars /\ _y_source s = no_bars
    /\ _x_ref_source s = no_ref /\ _y_ref_source s = no_ref
    /\ accX (_reference_measurements s) = accY (_reference_measurements s)
    /\ all_empty (accX (_reference_measurements s))
    /\ NoDup (keys (accX (_reference_measurements s)))
    /\ (forall r, In r (keys (accX (_reference_measurements s)))
                  <-> In r (rows (arg_table a))).
Proof.
  intros a s H. unfold init, rbind in H.
  destruct (init_color a); [| discriminate].
  destruct (init_bar_width a _); [| discriminate].
  destruct (py_min _); [| discriminate].
  destruct (py_max _); [| discriminate].
  destruct (color_bar_bounds _); [| discriminate].
  injection H as <-. cbn.
  destruct (empty_lists_keys (rows (arg_table a))) as [Hnd Hin].
  repeat split; try reflexivity; try assumption;
    try apply empty_lists_all_empty; apply Hin.
Qed.

Lemma init_state_witness :
  _collecting_reference Scenario.s0 = false
  /\ _reference_count Scenario.s0 = arg_reference_n Scenario.args
  /\ _reference_n Scenario.s0 = arg_reference_n Scenario.args
  /\ _z Scenario.s0 = map snd (table_data_Z (arg_table Scenario.args))
  /\ _x_source Scenario.s0 = no_bars /\ _y_source Scenario.s0 = no_bars
  /\ _x_ref_source Scenario.s0 = no_ref /\ _y_ref_source Scenario.s0 = no_ref
  /\ accX (_reference_measurements Scenario.s0)
     = accY (_reference_measurements Scenario.s0)
  /\ all_empty (accX (_reference_measurements Scenario.s0))
  /\ NoDup (keys (accX (_reference_measurements Scenario.s0)))
  /\ (forall r, In r (keys (accX (_reference_measurements Scenario.s0)))
                <-> In r (rows (arg_table Scenario.args))).
Proof.
  apply (@init_state Scenario.args Scenario.s0).
  vm_compute. reflexivity.
Defined.

(** ** What one cycle publishes *)

Lemma collect_step_static (vals : Vals) (color : option color)
    (s : OrbitDisplay) :
  static_view (snd (collect_step vals color s)) = static_view s.
Proof.
  rewrite collect_step_cases.
  destruct (_collecting_reference s); [| reflexivity]. cbv zeta.
  destruct (append_samples (valsX vals) _) as [[[] | e] ax]; [| reflexivity].
  destruct (append_samples (valsY vals) _) as [[[] | e] ay]; [| reflexivity].
  destruct (_reference_count s - 1 =? 0)%Z; [| reflexivity].
  rewrite complete_reference_cases.
  cbn -[axis_means line_z clear_lists drop_nan].
  destruct (line_z (_z s) 0 (axis_means ax)); [| reflexivity].
  destruct (line_z (_z s) 0 (axis_means ay)); [| reflexivity].
  destruct color; reflexivity.
Qed.

Lemma publish_raw_cases (vals : Vals) (colors : list color)
    (s : OrbitDisplay) :
  publish_raw vals colors s
  = match zero_inside (map (fun kv => to_float64 (snd kv)) (valsX vals)) with
    | Raise e => (Raise e, s)
    | Ok inx =>
        let s1 := if inx : bool
                  then set_x_plot_hlines (S (x_plot_hlines s)) s else s in
        match zero_inside (map (fun kv => to_float64 (snd kv)) (valsY vals)) with
        | Raise e => (Raise e, s1)
        | Ok iny =>
            let s2 := if iny : bool
                      then set_y_plot_hlines (S (y_plot_hlines s1)) s1
                      else s1 in
            (Ok tt,
             set_y_source
               (bars_of (_z s) (valsY vals) (keys (valsX vals)) colors)
               (set_x_source
                  (bars_of (_z s) (valsX vals) (keys (valsX vals)) colors)
                  s2))
        end
    end.
Proof.
  unfold publish_raw, bind, lift, modify, ret, bars_of.
  destruct (zero_inside _) as [[|] |]; try reflexivity;
    cbn; destruct (zero_inside _) as [[|] |]; reflexivity.
Qed.

(** The colours of a cycle are one colour, repeated for every device of the
    X readings: the colour of the map at the bin index, or the default. *)
Lemma pick_colors_shape (io : Env) (vals : Vals) (s : OrbitDisplay) cc :
  fst (pick_colors io vals s) = Ok cc ->
  exists c,
    snd cc = map (fun _ => c) (valsX vals)
    /\ ((fst cc = Some c
         /\ exists m cv extents idx cmap,
              _color_monitor s = Assigned (Some m)
              /\ color_monitor_poll io = Ok cv
              /\ _extents s = Assigned extents
              /\ bin_index extents cv = Ok idx
              /\ _color_map s = Assigned cmap
              /\ nth_error cmap idx = Some c)
        \/ (fst cc = None /\ c = gray /\ _color_monitor s = Assigned None)).
Proof.
  unfold pick_colors, bind, getattr, lift, ret.
  destruct (_color_monitor s) as [| [m |]]; try discriminate.
  - destruct (color_monitor_poll io) as [cv |]; try discriminate.
    destruct (_extents s) as [| extents]; try discriminate.
    destruct (bin_index extents cv) as [idx |] eqn:Hb; try discriminate.
    destruct (_color_map s) as [| cmap]; try discriminate.
    unfold list_index.
    destruct (nth_error cmap idx) as [c |] eqn:Hn; try discriminate.
    simpl. intros H. injection H as <-. exists c. split; [reflexivity |].
    left. split; [reflexivity |]. exists m, cv, extents, idx, cmap.
    repeat split; assumption.
  - simpl. intros H. injection H as <-. exists gray.
    split; [reflexivity |]. right. repeat split.
Qed.

(** A cycle that returns, taken apart. *)
Lemma update_ok_inv (io : Env) (s s' : OrbitDisplay) :
  update io s = (Ok tt, s') ->
  exists vals cc s1,
    monitor_poll io = Ok vals
    /\ fst (pick_colors io vals s) = Ok cc
    /\ collect_step vals (fst cc) s = (Ok tt, s1)
    /\ publish_raw vals (snd cc) s1 = (Ok tt, s').
Proof.
  intros Hu.
  destruct (update_fetch_failure io s)
    as [(e0 & _ & Hu') | [(vals & e0 & _ & _ & Hu') | (vals & cc & Hp & Hc)]];
    try congruence.
  rewrite (update_after_fetch io s Hp Hc) in Hu.
  destruct (collect_step vals (fst cc) s) as [[[] | e] s1] eqn:Hstep;
    [| discriminate].
  exists vals, cc, s1. auto.
Qed.

Lemma static_view_fields (s t : OrbitDisplay) :
  static_view s = static_view t ->
  _z s = _z t /\ _x_source s = _x_source t /\ _y_source s = _y_source t
  /\ x_plot_hlines s = x_plot_hlines t /\ y_plot_hlines s = y_plot_hlines t
  /\ _color_monitor s = _color_monitor t /\ _extents s = _extents t
  /\ _color_map s = _color_map t /\ _reference_n s = _reference_n t.
Proof.
  unfold static_view. intros H.
  injection H as Hz _ _ Hm He Hc _ _ Hx Hy Hhx Hhy Hn.
  repeat split; assumption.
Qed.

(** The two bar series of a cycle that returns, in terms of the colours
    the cycle picked. *)
Lemma update_publishes_raw_series_aux (io : Env) (s s' : OrbitDisplay) :
  update io s = (Ok tt, s') ->
  exists vals cc,
    monitor_poll io = Ok vals
    /\ fst (pick_colors io vals s) = Ok cc
    /\ _x_source s'
       = bars_of (_z s) (valsX vals) (keys (valsX vals)) (snd cc)
    /\ _y_source s'
       = bars_of (_z s) (valsY vals) (keys (valsX vals)) (snd cc).
Proof.
  intros Hu.
  destruct (update_ok_inv io s Hu) as (vals & cc & s1 & Hp & Hc & Hstep & Hpub).
  pose proof (collect_step_static vals (fst cc) s) as Hst.
  rewrite Hstep in Hst. cbn [snd] in Hst.
  apply static_view_fields in Hst. destruct Hst as (Hz & _).
  rewrite publish_raw_cases in Hpub. rewrite Hz in Hpub.
  exists vals, cc. split; [exact Hp |]. split; [exact Hc |].
  destruct (zero_inside _) as [[|] |]; try discriminate;
    cbv zeta in Hpub;
    destruct (zero_inside _) as [[|] |]; try discriminate;
    injection Hpub as <-; cbn; auto.
Qed.

(** X3.  A cycle that returns publishes, for both plots, the z coordinates
    of the object as positions, the readings in polled order with a missing
    reading as NaN, the device names of the X readings (for the Y plot
    too), and one and the same colour for every device. *)
Theorem update_publishes_raw_series :
  forall (io : Env) (s s' : OrbitDisplay),
    update io s = (Ok tt, s') ->
    exists vals c,
      monitor_poll io = Ok vals
      /\ _x_source s'
         = bars_of (_z s) (valsX vals) (keys (valsX vals))
             (map (fun _ => c) (valsX vals))
      /\ _y_source s'
         = bars_of (_z s) (valsY vals) (keys (valsX vals))
             (map (fun _ => c) (valsX vals))
      /\ _z s' = _z s.
Proof.
  intros io s s' Hu.
  destruct (update_ok_inv io s Hu) as (vals & cc & s1 & Hp & Hc & Hstep & Hpub).
  destruct (pick_colors_shape io vals s Hc) as (c & Hcol & _).
  pose proof (collect_step_static vals (fst cc) s) as Hst.
  rewrite Hstep in Hst. cbn [snd] in Hst.
  apply static_view_fields in Hst. destruct Hst as (Hz & _).
  rewrite publish_raw_cases in Hpub. rewrite Hcol, Hz in Hpub.
  exists vals, c. split; [exact Hp |].
  destruct (zero_inside _) as [[|] |]; try discriminate;
    cbv zeta in Hpub;
    destruct (zero_inside _) as [[|] |]; try discriminate;
    injection Hpub as <-; cbn; rewrite ?Hz; auto.
Qed.

Lemma update_publishes_raw_series_witness :
  let io := Scenario.cycle Scenario.x2 Scenario.x2 (Fin 0) in
  let s := Scenario.mid_capture in
  exists vals c,
    monitor_poll io = Ok vals
    /\ _x_source (run (update io) s)
       = bars_of (_z s) (valsX vals) (keys (valsX vals))
           (map (fun _ => c) (valsX vals))
    /\ _y_source (run (update io) s)
       = bars_of (_z s) (valsY vals) (keys (valsX vals))
           (map (fun _ => c) (valsX vals))
    /\ _z (run (update io) s) = _z s.
Proof.
  intros io s.
  apply (@update_publishes_raw_series io s (run (update io) s)).
  vm_compute. reflexivity.
Defined.

(** ** The sampler across cycles *)

(** X4.  While no capture is running, a cycle leaves the sampler alone,
    whether it returns or raises: flag, countdown, target, accumulators,
    published reference curves and line colours, z coordinates and colour
    configuration are as before. *)
Theorem idle_update_leaves_sampler :
  forall (io : Env) (s : OrbitDisplay),
    _collecting_reference s = false ->
    reference_view (run (update io) s) = reference_view s.
Proof.
  intros io s Hcol.
  destruct (update_steps io s) as [-> | (vals & cc & Hv)]; [reflexivity |].
  rewrite Hv, collect_step_cases, Hcol. reflexivity.
Qed.

Lemma idle_update_leaves_sampler_witness :
  let io := Scenario.cycle Scenario.x1 Scenario.x2 (Fin 1) in
  reference_view (run (update io) Scenario.s0) = reference_view Scenario.s0.
Proof.
  intros io. apply (idle_update_leaves_sampler io Scenario.s0). reflexivity.
Defined.

Lemma dict_get_not_in_keys {V} (d : dict V) (k : string) :
  ~ In k (keys d) -> dict_get d k = None.
Proof.
  induction d as [| [k0 v0] d IH]; simpl; [reflexivity |].
  intros Hn. destruct (String.eqb_spec k0 k) as [-> | Hne].
  - exfalso. apply Hn. auto.
  - apply IH. intros Hin. apply Hn. auto.
Qed.

Lemma dict_get_set_same {V} (d : dict V) (k : string) (v : V) :
  dict_get (dict_set d k v) k = Some v.
Proof.
  induction d as [| [k0 v0] d IH]; simpl.
  - now rewrite String.eqb_refl.
  - destruct (String.eqb k0 k) eqn:E; simpl; rewrite E; auto.
Qed.

Lemma dict_get_set_other {V} (d : dict V) (k k' : string) (v : V) :
  k <> k' -> dict_get (dict_set d k v) k' = dict_get d k'.
Proof.
  intros Hne. induction d as [| [k0 v0] d IH]; simpl.
  - destruct (String.eqb_spec k k'); [congruence | reflexivity].
  - destruct (String.eqb_spec k0 k) as [-> | Hk]; simpl.
    + destruct (String.eqb_spec k k'); [congruence | reflexivity].
    + destruct (String.eqb k0 k'); [reflexivity | exact IH].
Qed.

(** One cycle's append: every polled device gets exactly its reading at
    the end of its sequence, the other devices keep theirs. *)
Lemma append_samples_get (vs : dict sample) :
  forall (acc acc' : dict (list sample)),
    NoDup (keys vs) ->
    append_samples vs acc = (Ok tt, acc') ->
    forall d,
      dict_get acc' d
      = match dict_get vs d with
        | Some v => option_map (fun l => l ++ [v]) (dict_get acc d)
        | None => dict_get acc d
        end.
Proof.
  induction vs as [| [d0 v0] vs IH]; intros acc acc' Hnd H d.
  - simpl in H. injection H as <-. reflexivity.
  - cbn [keys map fst] in Hnd. apply NoDup_cons_iff in Hnd.
    destruct Hnd as [Hd0 Hnd]. fold (keys vs) in Hd0, Hnd.
    cbn [append_samples] in H.
    destruct (dict_get acc d0) as [l |] eqn:Hg; [| discriminate].
    rewrite (IH _ _ Hnd H d). cbn [dict_get].
    destruct (String.eqb_spec d0 d) as [<- | Hne].
    + rewrite (dict_get_not_in_keys vs d0 Hd0), dict_get_set_same, Hg.
      reflexivity.
    + rewrite (dict_get_set_other acc (l ++ [v0]) Hne). reflexivity.
Qed.

(** X5.  A cycle of a running capture that does not end the window and
    returns takes the countdown down by exactly one (not one per axis),
    keeps the flag and the published curves, keeps the rows of both
    accumulators, and appends to each polled device's sequence exactly its
    reading of this cycle, a missing one included; devices that were not
    polled keep their sequence. *)
Theorem capture_cycle_appends_once :
  forall (io : Env) (s s' : OrbitDisplay),
    _collecting_reference s = true ->
    _reference_count s <> 1%Z ->
    update io s = (Ok tt, s') ->
    exists vals,
      monitor_poll io = Ok vals
      /\ _reference_count s' = (_reference_count s - 1)%Z
      /\ _collecting_reference s' = true
      /\ _x_ref_source s' = _x_ref_source s
      /\ _y_ref_source s' = _y_ref_source s
      /\ keys (accX (_reference_measurements s'))
         = keys (accX (_reference_measurements s))
      /\ keys (accY (_reference_measurements s'))
         = keys (accY (_reference_measurements s))
      /\ (NoDup (keys (valsX vals)) ->
          forall d,
            dict_get (accX (_reference_measurements s')) d
            = match dict_get (valsX vals) d with
              | Some v =>
                  option_map (fun l => l ++ [v])
                    (dict_get (accX (_reference_measurements s)) d)
              | None => dict_get (accX (_reference_measurements s)) d
              end)
      /\ (NoDup (keys (valsY vals)) ->
          forall d,
            dict_get (accY (_reference_measurements s')) d
            = match dict_get (valsY vals) d with
              | Some v =>
                  option_map (fun l => l ++ [v])
                    (dict_get (accY (_reference_measurements s)) d)
              | None => dict_get (accY (_reference_measurements s)) d
              end).
Proof.
  intros io s s' Hcol Hcount Hu.
  destruct (update_accumulates io s Hcol Hcount Hu)
    as (vals & ax & ay & Hp & Hax & Hay & Hv).
  unfold reference_view in Hv.
  injection Hv as Ecol Eacc Ecount _ Ex Ey _ _ _ _ _ _.
  cbn in Ecol, Eacc, Ecount, Ex, Ey.
  exists vals. rewrite Eacc, Ecount, Ecol, Ex, Ey. cbn [accX accY].
  pose proof (append_samples_keys (valsX vals)
                (accX (_reference_measurements s))) as Hkx.
  pose proof (append_samples_keys (valsY vals)
                (accY (_reference_measurements s))) as Hky.
  rewrite Hax in Hkx. rewrite Hay in Hky. cbn [snd] in Hkx, Hky.
  repeat split; try assumption.
  - intros Hnd. now apply append_samples_get.
  - intros Hnd. now apply append_samples_get.
Qed.

Lemma capture_cycle_appends_once_witness :
  let io := Scenario.cycle Scenario.x1 Scenario.x2 (Fin 1) in
  let s := run _collect_reference Scenario.s0 in
  exists vals,
    monitor_poll io = Ok vals
    /\ _reference_count (run (update io) s) = (_reference_count s - 1)%Z
    /\ _collecting_reference (run (update io) s) = true
    /\ _x_ref_source (run (update io) s) = _x_ref_source s
    /\ _y_ref_source (run (update io) s) = _y_ref_source s
    /\ keys (accX (_reference_measurements (run (update io) s)))
       = keys (accX (_reference_measurements s))
    /\ keys (accY (_reference_measurements (run (update io) s)))
       = keys (accY (_reference_measurements s))
    /\ (NoDup (keys (valsX vals)) ->
        forall d,
          dict_get (accX (_reference_measurements (run (update io) s))) d
          = match dict_get (valsX vals) d with
            | Some v =>
                option_map (fun l => l ++ [v])
                  (dict_get (accX (_reference_measurements s)) d)
            | None => dict_get (accX (_reference_measurements s)) d
            end)
    /\ (NoDup (keys (valsY vals)) ->
        forall d,
          dict_get (accY (_reference_measurements (run (update io) s))) d
          = match dict_get (valsY vals) d with
            | Some v =>
                option_map (fun l => l ++ [v])
                  (dict_get (accY (_reference_measurements s)) d)
            | None => dict_get (accY (_reference_measurements s)) d
            end).
Proof.
  intros io s.
  apply (@capture_cycle_appends_once io s (run (update io) s)).
  - reflexivity.
  - vm_compute. discriminate.
  - vm_compute. reflexivity.
Defined.

Lemma updates_app (a b : list Env) :
  forall s,
    updates (a ++ b) s
    = match updates a s with
      | Some s1 => updates b s1
      | None => None
      end.
Proof.
  induction a as [| io a IH]; intros s; simpl; [reflexivity |].
  destruct (update io s) as [[[] | e] s1]; [apply IH | reflexivity].
Qed.

(** As long as the countdown is above the number of cycles, the capture
    stays open. *)
Lemma updates_countdown (ios : list Env) :
  forall s s',
    _collecting_reference s = true ->
    (Z.of_nat (length ios) < _reference_count s)%Z ->
    updates ios s = Some s' ->
    _collecting_reference s' = true
    /\ _reference_count s' = (_reference_count s - Z.of_nat (length ios))%Z
    /\ _reference_n s' = _reference_n s
    /\ _x_ref_source s' = _x_ref_source s
    /\ _y_ref_source s' = _y_ref_source s
    /\ _z s' = _z s.
Proof.
  induction ios as [| io ios IH]; intros s s' Hcol Hlt H.
  - simpl in H. injection H as <-. simpl. repeat split; auto. lia.
  - cbn [updates] in H. cbn [length] in Hlt.
    destruct (update io s) as [[[] | e] s1] eqn:Hu; [| discriminate].
    assert (Hcount : _reference_count s <> 1%Z) by lia.
    destruct (update_accumulates io s Hcol Hcount Hu)
      as (vals & ax & ay & _ & _ & _ & Hv).
    unfold reference_view in Hv.
    injection Hv as Ecol _ Ecount En Ex Ey _ _ Ez _ _ _.
    cbn in Ecol, Ecount, En, Ex, Ey, Ez.
    destruct (IH s1 s') as (H1 & H2 & H3 & H4 & H5 & H6);
      [congruence | lia | exact H |].
    rewrite H1, H2, H3, H4, H5, H6, Ecount, En, Ex, Ey, Ez.
    cbn [length]. repeat split; auto. lia.
Qed.

Lemma clear_lists_keys (d : dict (list sample)) :
  keys (clear_lists d) = keys d.
Proof. unfold keys, clear_lists. rewrite map_map. reflexivity. Qed.

(** X6.  A capture whose countdown is k + 1 ends with the (k + 1)-th
    returning cycle and not before: after the first k cycles the flag is
    still set, the countdown is 1 and the published curves are untouched;
    the last cycle clears the flag, puts the countdown back to the target,
    and empties every accumulator sequence while keeping the rows. *)
Theorem capture_ends_with_countdown :
  forall (ios : list Env) (io : Env) (s s' : OrbitDisplay),
    _collecting_reference s = true ->
    _reference_count s = Z.of_nat (S (length ios)) ->
    updates (ios ++ [io]) s = Some s' ->
    (exists s1,
        updates ios s = Some s1
        /\ _collecting_reference s1 = true
        /\ _reference_count s1 = 1%Z
        /\ _x_ref_source s1 = _x_ref_source s
        /\ _y_ref_source s1 = _y_ref_source s
        /\ keys (accX (_reference_measurements s'))
           = keys (accX (_reference_measurements s1))
        /\ keys (accY (_reference_measurements s'))
           = keys (accY (_reference_measurements s1)))
    /\ _collecting_reference s' = false
    /\ _reference_count s' = _reference_n s
    /\ all_empty (accX (_reference_measurements s'))
    /\ all_empty (accY (_reference_measurements s')).
Proof.
  intros ios io s s' Hcol Hcount H.
  rewrite updates_app in H.
  destruct (updates ios s) as [s1 |] eqn:H1; [| discriminate].
  assert (Hlt : (Z.of_nat (length ios) < _reference_count s)%Z) by lia.
  destruct (@updates_countdown ios s s1 Hcol Hlt H1)
    as (Hc1 & Hk1 & Hn1 & Hx1 & Hy1 & _).
  cbn [updates] in H.
  destruct (update io s1) as [[[] | e] s2] eqn:Hu; [| discriminate].
  injection H as <-.
  assert (Hone : _reference_count s1 = 1%Z) by lia.
  destruct (update_completion io s1 Hc1 Hone Hu)
    as (vals & ax & ay & _ & Hax & Hay & _ & _ & _ & _ & Hc2 & Hk2 & Hacc).
  pose proof (append_samples_keys (valsX vals)
                (accX (_reference_measurements s1))) as Hkx.
  pose proof (append_samples_keys (valsY vals)
                (accY (_reference_measurements s1))) as Hky.
  rewrite Hax in Hkx. rewrite Hay in Hky. cbn [snd] in Hkx, Hky.
  rewrite Hacc. cbn [accX accY]. rewrite !clear_lists_keys.
  split.
  - exists s1. repeat split; auto.
  - repeat split; try apply clear_lists_all_empty; congruence.
Qed.

Lemma capture_ends_with_countdown_witness :
  let io1 := Scenario.cycle Scenario.x1 Scenario.x2 (Fin 1) in
  let io2 := Scenario.cycle Scenario.x2 Scenario.x1 (Fin 2) in
  let s := run _collect_reference Scenario.s0 in
  let s' := run (update io2) (run (update io1) s) in
  (exists s1,
      updates [io1] s = Some s1
      /\ _collecting_reference s1 = true
      /\ _reference_count s1 = 1%Z
      /\ _x_ref_source s1 = _x_ref_source s
      /\ _y_ref_source s1 = _y_ref_source s
      /\ keys (accX (_reference_measurements s'))
         = keys (accX (_reference_measurements s1))
      /\ keys (accY (_reference_measurements s'))
         = keys (accY (_reference_measurements s1)))
  /\ _collecting_reference s' = false
  /\ _reference_count s' = _reference_n s
  /\ all_empty (accX (_reference_measurements s'))
  /\ all_empty (accY (_reference_measurements s')).
Proof.
  intros io1 io2 s s'.
  apply (@capture_ends_with_countdown [io1] io2 s s').
  - reflexivity.
  - reflexivity.
  - vm_compute. reflexivity.
Defined.

(** ** The published curve *)

Lemma reference_rows_no_nan (z : list float64) (acc : dict (list sample)) :
  Forall (fun v => np_isnan v = false) (means (reference_rows z acc)).
Proof.
  unfold means, reference_rows. apply Forall_forall. intros v Hv.
  apply in_map_iff in Hv. destruct Hv as (zr & <- & Hin).
  apply filter_In in Hin. destruct Hin as [_ Hn].
  now destruct (np_isnan (row_mean (snd zr))).
Qed.

Lemma reference_rows_length (z : list float64) (acc : dict (list sample)) :
  (length (reference_rows z acc) <= length acc)%nat
  /\ (length (reference_rows z acc) <= length z)%nat.
Proof.
  unfold reference_rows.
  pose proof (filter_length_le
                (fun zr : float64 * (string * list sample) =>
                   negb (np_isnan (row_mean (snd zr)))) (combine z acc)) as H.
  rewrite length_combine in H. lia.
Qed.

(** X7.  The reference curve a completed window publishes is well formed
    on each axis: as many positions as values, no more of them than
    accumulator rows or z coordinates, and no value is NaN. *)
Theorem published_curve_well_formed :
  forall (io : Env) (s s' : OrbitDisplay),
    _collecting_reference s = true ->
    _reference_count s = 1%Z ->
    update io s = (Ok tt, s') ->
    length (ref_x (_x_ref_source s')) = length (ref_y (_x_ref_source s'))
    /\ length (ref_x (_y_ref_source s')) = length (ref_y (_y_ref_source s'))
    /\ (length (ref_x (_x_ref_source s'))
        <= length (accX (_reference_measurements s)))%nat
    /\ (length (ref_x (_y_ref_source s'))
        <= length (accY (_reference_measurements s)))%nat
    /\ (length (ref_x (_x_ref_source s')) <= length (_z s))%nat
    /\ (length (ref_x (_y_ref_source s')) <= length (_z s))%nat
    /\ Forall (fun v => np_isnan v = false) (ref_y (_x_ref_source s'))
    /\ Forall (fun v => np_isnan v = false) (ref_y (_y_ref_source s')).
Proof.
  intros io s s' Hcol Hone Hu.
  destruct (update_completion io s Hcol Hone Hu)
    as (vals & ax & ay & _ & Hax & Hay & Hx1 & Hx2 & Hy1 & Hy2 & _).
  pose proof (append_samples_length (valsX vals)
                (accX (_reference_measurements s))) as Hlx.
  pose proof (append_samples_length (valsY vals)
                (accY (_reference_measurements s))) as Hly.
  rewrite Hax in Hlx. rewrite Hay in Hly. cbn [snd] in Hlx, Hly.
  rewrite Hx1, Hx2, Hy1, Hy2. unfold positions, means.
  rewrite !length_map.
  destruct (reference_rows_length (_z s) ax) as [H1 H2].
  destruct (reference_rows_length (_z s) ay) as [H3 H4].
  repeat split; try lia; apply reference_rows_no_nan.
Qed.

Lemma published_curve_well_formed_witness :
  let io := Scenario.cycle Scenario.x2 Scenario.x2 (Fin 0) in
  let s := Scenario.mid_capture in
  let s' := run (update io) s in
  length (ref_x (_x_ref_source s')) = length (ref_y (_x_ref_source s'))
  /\ length (ref_x (_y_ref_source s')) = length (ref_y (_y_ref_source s'))
  /\ (length (ref_x (_x_ref_source s'))
      <= length (accX (_reference_measurements s)))%nat
  /\ (length (ref_x (_y_ref_source s'))
      <= length (accY (_reference_measurements s)))%nat
  /\ (length (ref_x (_x_ref_source s')) <= length (_z s))%nat
  /\ (length (ref_x (_y_ref_source s')) <= length (_z s))%nat
  /\ Forall (fun v => np_isnan v = false) (ref_y (_x_ref_source s'))
  /\ Forall (fun v => np_isnan v = false) (ref_y (_y_ref_source s')).
Proof.
  intros io s s'.
  apply (@published_curve_well_formed io s s').
  - vm_compute. reflexivity.
  - vm_compute. reflexivity.
  - vm_compute. reflexivity.
Defined.

(** ** Which devices are kept, and at what value *)












(** ** The colour signal *)

(** X10.  When the colour signal has no value, a cycle raises TypeError at
    the subtraction [self._extents - color_val] (the extents not being
    empty) and changes nothing: no reading is published or sampled. *)
Theorem update_missing_color_signal :
  forall (io : Env) (vals : Vals) (s : OrbitDisplay) (m : ScalarVariable)
         (extents : list float64),
    _color_monitor s = Assigned (Some m) ->
    _extents s = Assigned extents ->
    extents <> [] ->
    monitor_poll io = Ok vals ->
    color_monitor_poll io = Ok None ->
    update io s = (Raise TypeError, s).
Proof.
  intros io vals s m extents Hm He Hne Hp Hcp.
  unfold update, bind, lift, pick_colors, bind, getattr, lift.
  rewrite Hp, Hm, Hcp, He.
  destruct extents as [| e0 extents]; [congruence | reflexivity].
Qed.

Lemma update_missing_color_signal_witness :
  let io := {| monitor_poll :=
                 Ok {| valsX := Scenario.x1; valsY := Scenario.x1 |};
               color_monitor_poll := Ok None |} in
  update io Scenario.mid_capture = (Raise TypeError, Scenario.mid_capture).
Proof.
  intros io.
  apply (@update_missing_color_signal io
           {| valsX := Scenario.x1; valsY := Scenario.x1 |}
           Scenario.mid_capture "signal"%string [Fin 0; Fin 1; Fin 2]).
  - vm_compute. reflexivity.
  - vm_compute. reflexivity.
  - discriminate.
  - reflexivity.
  - reflexivity.
Defined.

(** X11.  A NaN colour signal is binned at index 0: a cycle that returns
    then gives every bar the first colour of the colour map. *)
Theorem update_nan_color_signal :
  forall (io : Env) (vals : Vals) (s s' : OrbitDisplay) (m : ScalarVariable)
         (extents : list float64) (c0 : color) (cmap : list color),
    _color_monitor s = Assigned (Some m) ->
    _extents s = Assigned extents ->
    extents <> [] ->
    _color_map s = Assigned (c0 :: cmap) ->
    monitor_poll io = Ok vals ->
    color_monitor_poll io = Ok (Some NaN) ->
    update io s = (Ok tt, s') ->
    bin_index extents (Some NaN) = Ok 0%nat
    /\ bar_color (_x_source s') = map (fun _ => c0) (valsX vals)
    /\ bar_color (_y_source s') = map (fun _ => c0) (valsX vals).
Proof.
  intros io vals s s' m extents c0 cmap Hm He Hne Hc Hp Hcp Hu.
  assert (Hb : bin_index extents (Some NaN) = Ok 0%nat).
  { destruct extents as [| e0 extents]; [congruence |].
    unfold bin_index. cbn [map]. destruct e0; reflexivity. }
  split; [exact Hb |].
  destruct (update_publishes_raw_series_aux io s Hu)
    as (vals' & cc & Hp' & Hc' & Hx & Hy).
  assert (vals' = vals) by congruence. subst vals'.
  unfold pick_colors, bind, getattr, lift, ret in Hc'.
  rewrite Hm, Hcp, He, Hb, Hc in Hc'. cbn in Hc'. injection Hc' as <-.
  rewrite Hx, Hy. split; reflexivity.
Qed.

Lemma update_nan_color_signal_witness :
  let vals := {| valsX := Scenario.x1; valsY := Scenario.x2 |} in
  let io := {| monitor_poll := Ok vals;
               color_monitor_poll := Ok (Some NaN) |} in
  let s' := run (update io) Scenario.s0 in
  bin_index [Fin 0; Fin 1; Fin 2] (Some NaN) = Ok 0%nat
  /\ bar_color (_x_source s') = map (fun _ => "red"%string) (valsX vals)
  /\ bar_color (_y_source s') = map (fun _ => "red"%string) (valsX vals).
Proof.
  intros vals io s'.
  apply (@update_nan_color_signal io vals Scenario.s0 s' "signal"%string
           [Fin 0; Fin 1; Fin 2] "red"%string ["green"; "blue"]%string).
  - reflexivity.
  - reflexivity.
  - discriminate.
  - reflexivity.
  - reflexivity.
  - reflexivity.
  - vm_compute. reflexivity.
Defined.



(** X13.  Unless the colour monitor attribute is [None], which no method
    makes it, the default colour is never used: the one colour a returning
    cycle gives to all bars is an entry of the colour map, the one at the
    bin index of the polled signal value. *)
Theorem update_colors_from_map :
  forall (io : Env) (s s' : OrbitDisplay),
    _color_monitor s <> Assigned None ->
    update io s = (Ok tt, s') ->
    exists vals cv extents idx cmap c,
      monitor_poll io = Ok vals
      /\ color_monitor_poll io = Ok cv
      /\ _extents s = Assigned extents
      /\ bin_index extents cv = Ok idx
      /\ _color_map s = Assigned cmap
      /\ nth_error cmap idx = Some c
      /\ bar_color (_x_source s') = map (fun _ => c) (valsX vals)
      /\ bar_color (_y_source s') = map (fun _ => c) (valsX vals).
Proof.
  intros io s s' Hcm Hu.
  destruct (update_publishes_raw_series_aux io s Hu)
    as (vals & cc & Hp & Hc & Hx & Hy).
  destruct (pick_colors_shape io vals s Hc)
    as (c & Hcol & [(_ & m & cv & extents & idx & cmap & H) | (_ & _ & H)]);
    [| contradiction].
  destruct H as (_ & Hcp & He & Hb & Hmap & Hn).
  exists vals, cv, extents, idx, cmap, c.
  rewrite Hx, Hy, Hcol. repeat split; assumption.
Qed.

Lemma update_colors_from_map_witness :
  let io := Scenario.cycle Scenario.x1 Scenario.x2 (Fin (16 # 10)) in
  let s' := run (update io) Scenario.s0 in
  exists vals cv extents idx cmap c,
    monitor_poll io = Ok vals
    /\ color_monitor_poll io = Ok cv
    /\ _extents Scenario.s0 = Assigned extents
    /\ bin_index extents cv = Ok idx
    /\ _color_map Scenario.s0 = Assigned cmap
    /\ nth_error cmap idx = Some c
    /\ bar_color (_x_source s') = map (fun _ => c) (valsX vals)
    /\ bar_color (_y_source s') = map (fun _ => c) (valsX vals).
Proof.
  intros io s'.
  apply (@update_colors_from_map io Scenario.s0 s').
  - discriminate.
  - vm_compute. reflexivity.
Defined.

(** ** States the class can reach *)

Lemma collect_step_count_le (vals : Vals) (color : option color)
    (s : OrbitDisplay) :
  (_reference_count s <= _reference_n s)%Z ->
  (_reference_count (snd (collect_step vals color s)) <= _reference_n s)%Z.
Proof.
  intros Hle. rewrite collect_step_cases.
  destruct (_collecting_reference s); [| exact Hle]. cbv zeta.
  destruct (append_samples (valsX vals) _) as [[[] | e] ax];
    [| simpl; lia].
  destruct (append_samples (valsY vals) _) as [[[] | e] ay];
    [| simpl; lia].
  destruct (_reference_count s - 1 =? 0)%Z; [| simpl; lia].
  rewrite complete_reference_cases.
  cbn -[axis_means line_z clear_lists drop_nan Z.sub].
  destruct (line_z (_z s) 0 (axis_means ax)); [| simpl; lia].
  destruct (line_z (_z s) 0 (axis_means ay)); [| simpl; lia].
  destruct color; simpl; lia.
Qed.

Lemma update_keeps_invariant (n : Z) (io : Env) (s : OrbitDisplay) :
  class_invariant n s -> class_invariant n (run (update io) s).
Proof.
  intros (Hn & Hle & Hm & Ha).
  destruct (update_steps io s) as [-> | (vals & cc & Hv)];
    [repeat split; auto; apply Ha; auto |].
  pose proof (collect_step_static vals (fst cc) s) as Hst.
  apply static_view_fields in Hst.
  destruct Hst as (_ & _ & _ & _ & _ & Em & Ee & Ec & En).
  pose proof (@collect_step_count_le vals (fst cc) s) as Hc.
  unfold reference_view in Hv.
  injection Hv as _ _ Ecount En' _ _ _ _ _ Em' Ee' Ec'.
  unfold class_invariant.
  rewrite En', Ecount, Em', Ee', Ec', En, Em, Ee, Ec.
  repeat split; auto; try apply Ha; auto. rewrite <- Hn. apply Hc. lia.
Qed.

Lemma call_keeps_invariant (n : Z) (c : call) (s : OrbitDisplay) :
  class_invariant n s -> class_invariant n (run (do_call c) s).
Proof.
  destruct c as [io | table | cv cmap extents | |]; cbn [do_call].
  - apply update_keeps_invariant.
  - intros H. exact H.
  - intros (Hn & Hle & Hm & Ha). unfold run.
    rewrite update_colormap_cases.
    destruct extents as [| lo [| hi rest]];
      try (cbn; repeat split; auto; try discriminate; apply Ha; auto).
    destruct (py_range lo hi (length cmap));
      cbn; repeat split; auto; try discriminate; apply Ha; auto.
  - intros H. exact H.
  - intros H. exact H.
Qed.

Lemma calls_keep_invariant (n : Z) (cs : list call) :
  forall s, class_invariant n s -> class_invariant n (calls cs s).
Proof.
  unfold calls. induction cs as [| c cs IH]; intros s H; [exact H |].
  cbn [fold_left]. apply IH. now apply call_keeps_invariant.
Qed.

(** X14.  On an object the constructor returned, after any sequence of
    method calls, returning or raising: the capture target is the one given
    at construction, the countdown is at most the target, the colour
    monitor attribute is never [None], and whenever a colour monitor is
    assigned, extents and a colour map are assigned too. *)
Theorem reachable_states_invariant :
  forall (a : InitArgs) (s0 : OrbitDisplay) (cs : list call),
    init a = Ok s0 ->
    class_invariant (arg_reference_n a) (calls cs s0).
Proof.
  intros a s0 cs H. apply calls_keep_invariant.
  unfold init, rbind in H.
  destruct (init_color a) as [cattrs |] eqn:Hc; [| discriminate].
  destruct (init_bar_width a _); [| discriminate].
  destruct (py_min _); [| discriminate].
  destruct (py_max _); [| discriminate].
  destruct (color_bar_bounds _); [| discriminate].
  injection H as <-. unfold class_invariant. cbn.
  unfold init_color in Hc.
  destruct (arg_color_var a); [| injection Hc as <-; cbn;
                                  repeat split; try lia; try discriminate;
                                  congruence].
  destruct (arg_extents a); [| discriminate].
  destruct (arg_color_map a); [| discriminate].
  injection Hc as <-. cbn. repeat split; try lia; discriminate.
Qed.

Lemma reachable_states_invariant_witness :
  class_invariant 2
    (calls [CallCollectReference;
            CallUpdate (Scenario.cycle Scenario.x1 Scenario.x1 (Fin 0));
            CallUpdateColormap "other"%string ["a"; "b"]%string [5%Z];
            CallUpdateTable {| table_data_Z := []; rows := [] |};
            CallUpdate (Scenario.cycle [] [] (Fin 0));
            CallResetReference]
       Scenario.s0).
Proof.
  apply (@reachable_states_invariant Scenario.args Scenario.s0).
  vm_compute. reflexivity.
Defined.

(** ** The colour column of the reference sources *)

Lemma collect_step_ref_color (vals : Vals) (color : option color)
    (s : OrbitDisplay) :
  ref_color (_x_ref_source (snd (collect_step vals color s)))
  = ref_color (_x_ref_source s)
  /\ ref_color (_y_ref_source (snd (collect_step vals color s)))
     = ref_color (_y_ref_source s).
Proof.
  rewrite collect_step_cases.
  destruct (_collecting_reference s); [| split; reflexivity]. cbv zeta.
  destruct (append_samples (valsX vals) _) as [[[] | e] ax];
    [| split; reflexivity].
  destruct (append_samples (valsY vals) _) as [[[] | e] ay];
    [| split; reflexivity].
  destruct (_reference_count s - 1 =? 0)%Z; [| split; reflexivity].
  rewrite complete_reference_cases.
  cbn -[axis_means line_z clear_lists drop_nan].
  destruct (line_z (_z s) 0 (axis_means ax)); [| split; reflexivity].
  destruct (line_z (_z s) 0 (axis_means ay)); [| split; reflexivity].
  destruct color; split; reflexivity.
Qed.

Lemma call_ref_color (c : call) (s : OrbitDisplay) :
  ref_color (_x_ref_source (run (do_call c) s))
  = (if is_reset c then Some [] else ref_color (_x_ref_source s))
  /\ ref_color (_y_ref_source (run (do_call c) s))
     = (if is_reset c then Some [] else ref_color (_y_ref_source s)).
Proof.
  destruct c as [io | table | cv cmap extents | |]; cbn [do_call is_reset];
    try (split; reflexivity).
  - destruct (update_steps io s) as [-> | (vals & cc & Hv)];
      [split; reflexivity |].
    unfold reference_view in Hv.
    injection Hv as _ _ _ _ Ex Ey _ _ _ _ _ _. rewrite Ex, Ey.
    apply collect_step_ref_color.
  - unfold run. rewrite update_colormap_cases.
    destruct extents as [| lo [| hi rest]]; try (split; reflexivity).
    destruct (py_range lo hi (length cmap)); split; reflexivity.
Qed.

(** X15.  Only [_reset_reference] writes the colour column of the two
    reference sources: after any sequence of calls the column is the empty
    list if the sequence contains a reset and is as it was otherwise.  From
    the first reset on it stays empty, also beside the x and y columns of
    a curve published later. *)
Theorem ref_color_column :
  forall (cs : list call) (s : OrbitDisplay),
    ref_color (_x_ref_source (calls cs s))
    = (if existsb is_reset cs then Some [] else ref_color (_x_ref_source s))
    /\ ref_color (_y_ref_source (calls cs s))
       = (if existsb is_reset cs then Some []
          else ref_color (_y_ref_source s)).
Proof.
  unfold calls. induction cs as [| c cs IH]; intros s; [split; reflexivity |].
  cbn [fold_left existsb].
  destruct (IH (run (do_call c) s)) as [Hx Hy].
  destruct (call_ref_color c s) as [Cx Cy].
  rewrite Hx, Hy, Cx, Cy.
  destruct (is_reset c); cbn [orb]; [| split; reflexivity].
  destruct (existsb is_reset cs); split; reflexivity.
Qed.

(** ** Colour reconfiguration, continued *)

(** X16.  A colour reconfiguration that raises is not undone: the object
    is left with the new colour map beside the old extents and the old
    colour monitor, and is otherwise unchanged. *)
Theorem update_colormap_failure_keeps_new_map :
  forall (cv : ScalarVariable) (cmap : list color) (extents : list Z)
         (s : OrbitDisplay),
    outcome (update_colormap cv cmap extents) s <> Ok tt ->
    run (update_colormap cv cmap extents) s
    = set_color_map (Assigned cmap) s.
Proof.
  intros cv cmap extents s. unfold outcome, run.
  rewrite update_colormap_cases.
  destruct extents as [| lo [| hi rest]]; try reflexivity.
  destruct (py_range lo hi (length cmap)); [| reflexivity].
  intros H. exfalso. apply H. reflexivity.
Qed.

Lemma update_colormap_failure_keeps_new_map_witness :
  run (update_colormap "other"%string ["a"; "b"]%string [5%Z]) Scenario.s0
  = set_color_map (Assigned ["a"; "b"]%string) Scenario.s0.
Proof.
  apply update_colormap_failure_keeps_new_map.
  vm_compute. discriminate.
Defined.

(** X17.  After a colour reconfiguration whose upper bound is not above
    its lower bound the object has no bin at all, and every cycle whose two
    polls return a value raises ValueError and changes nothing, until the
    colours are reconfigured again. *)
Theorem update_colormap_empty_range :
  forall (cv : ScalarVariable) (cmap : list color) (lo hi : Z)
         (rest : list Z) (s : OrbitDisplay) (io : Env) (vals : Vals)
         (color_val : float64),
    cmap <> [] ->
    (hi <= lo)%Z ->
    monitor_poll io = Ok vals ->
    color_monitor_poll io = Ok (Some color_val) ->
    outcome (update_colormap cv cmap (lo :: hi :: rest)) s = Ok tt
    /\ _extents (run (update_colormap cv cmap (lo :: hi :: rest)) s)
       = Assigned []
    /\ update io (run (update_colormap cv cmap (lo :: hi :: rest)) s)
       = (Raise ValueError,
          run (update_colormap cv cmap (lo :: hi :: rest)) s).
Proof.
  intros cv cmap lo hi rest s io vals color_val Hne Hle Hp Hcp.
  unfold outcome, run. rewrite update_colormap_cases.
  assert (Hr : py_range lo hi (length cmap) = Ok []).
  { destruct cmap as [| c cmap]; [congruence |]. unfold py_range.
    cbn [length]. destruct (lo <? hi)%Z eqn:E; [| reflexivity].
    apply Z.ltb_lt in E. lia. }
  rewrite Hr. cbn [fst snd map].
  split; [reflexivity |]. split; [reflexivity |].
  unfold update, bind, lift, pick_colors, bind, getattr, lift.
  rewrite Hp. cbn. rewrite Hcp. reflexivity.
Qed.

Lemma update_colormap_empty_range_witness :
  let s := run (update_colormap "other"%string ["a"; "b"]%string [3; 3]%Z)
               Scenario.s0 in
  let io := Scenario.cycle Scenario.x1 Scenario.x1 (Fin 3) in
  outcome (update_colormap "other"%string ["a"; "b"]%string [3; 3]%Z)
          Scenario.s0 = Ok tt
  /\ _extents s = Assigned []
  /\ update io s = (Raise ValueError, s).
Proof.
  intros s io.
  apply (@update_colormap_empty_range "other"%string ["a"; "b"]%string
           3%Z 3%Z [] Scenario.s0 io
           {| valsX := Scenario.x1; valsY := Scenario.x1 |} (Fin 3)).
  - discriminate.
  - lia.
  - reflexivity.
  - reflexivity.
Defined.

Lemma range_from_length (n : nat) :
  forall a st, length (range_from a st n) = n.
Proof. induction n as [| n IH]; intros a st; simpl; [| rewrite IH]; auto. Qed.

Lemma range_from_nth (n : nat) :
  forall a st i,
    (i < n)%nat ->
    nth_error (range_from a st n) i = Some (a + Z.of_nat i * st)%Z.
Proof.
  induction n as [| n IH]; intros a st i Hi; [lia |].
  destruct i as [| i]; cbn [range_from nth_error].
  - f_equal. lia.
  - rewrite IH by lia. f_equal. lia.
Qed.

(** The bins [range(lo, hi, n)] leaves for [lo < hi] and [n > 0]. *)
Lemma py_range_bins (lo hi : Z) (n : nat) :
  (lo < hi)%Z -> n <> 0%nat ->
  exists r,
    py_range lo hi n = Ok r
    /\ Z.of_nat (length r) = ((hi - lo + Z.of_nat n - 1) / Z.of_nat n)%Z
    /\ (forall i, (i < length r)%nat ->
                  nth_error r i = Some (lo + Z.of_nat i * Z.of_nat n)%Z
                  /\ (lo + Z.of_nat i * Z.of_nat n < hi)%Z)
    /\ ((length r <= n)%nat <-> (hi - lo <= Z.of_nat n * Z.of_nat n)%Z).
Proof.
  intros Hlt Hn. destruct n as [| n']; [congruence |].
  set (n := S n') in *. set (st := Z.of_nat n).
  assert (Hst : (0 < st)%Z) by (unfold st, n; lia).
  unfold py_range. fold n. fold st.
  destruct (lo <? hi)%Z eqn:E; [| apply Z.ltb_ge in E; lia].
  set (q := ((hi - lo + st - 1) / st)%Z).
  assert (Hq0 : (0 <= q)%Z) by (apply Z.div_pos; lia).
  assert (Hq1 : (st * q <= hi - lo + st - 1)%Z)
    by (apply Z.mul_div_le; exact Hst).
  assert (Hq2 : (hi - lo + st - 1 < st * (q + 1))%Z).
  { pose proof (Z.mod_pos_bound (hi - lo + st - 1) st Hst) as Hm.
    pose proof (Z.div_mod (hi - lo + st - 1) st) as Hd.
    fold q in Hd. lia. }
  eexists. split; [reflexivity |].
  rewrite range_from_length. split; [lia |]. split.
  - intros i Hi. rewrite range_from_nth by exact Hi.
    split; [reflexivity |]. nia.
  - split; intros H; nia.
Qed.

(** X18.  A colour reconfiguration with [extents[0] < extents[1]] and a
    non-empty colour map leaves as bins the integers [extents[0] + i * n]
    below [extents[1]], n being the number of colours; there are
    ceil((extents[1] - extents[0]) / n) of them, which is at most the
    number of colours exactly when the span is at most n * n. *)
Theorem update_colormap_bins :
  forall (cv : ScalarVariable) (cmap : list color) (lo hi : Z)
         (rest : list Z) (s : OrbitDisplay),
    cmap <> [] ->
    (lo < hi)%Z ->
    exists r,
      _extents (run (update_colormap cv cmap (lo :: hi :: rest)) s)
      = Assigned (map float_of_int r)
      /\ Z.of_nat (length r)
         = ((hi - lo + Z.of_nat (length cmap) - 1)
            / Z.of_nat (length cmap))%Z
      /\ (forall i, (i < length r)%nat ->
                    nth_error r i
                    = Some (lo + Z.of_nat i * Z.of_nat (length cmap))%Z
                    /\ (lo + Z.of_nat i * Z.of_nat (length cmap) < hi)%Z)
      /\ ((length r <= length cmap)%nat
          <-> (hi - lo
               <= Z.of_nat (length cmap) * Z.of_nat (length cmap))%Z).
Proof.
  intros cv cmap lo hi rest s Hne Hlt.
  destruct (@py_range_bins lo hi (length cmap) Hlt)
    as (r & Hr & Hlen & Hnth & Hiff).
  { destruct cmap; [congruence | discriminate]. }
  exists r. unfold run. rewrite update_colormap_cases, Hr.
  split; [reflexivity |]. auto.
Qed.

Lemma update_colormap_bins_witness :
  exists r,
    _extents (run (update_colormap "other"%string ["a"; "b"]%string
                     [0; 10]%Z) Scenario.s0)
    = Assigned (map float_of_int r)
    /\ Z.of_nat (length r) = ((10 - 0 + 2 - 1) / 2)%Z
    /\ (forall i, (i < length r)%nat ->
                  nth_error r i = Some (0 + Z.of_nat i * 2)%Z
                  /\ (0 + Z.of_nat i * 2 < 10)%Z)
    /\ ((length r <= 2)%nat <-> (10 - 0 <= 2 * 2)%Z).
Proof.
  apply (@update_colormap_bins "other"%string ["a"; "b"]%string 0%Z 10%Z []
           Scenario.s0).
  - discriminate.
  - lia.
Defined.






(** ** Least and greatest reading *)

Lemma float_lt_Fin (x y : Q) : float_lt (Fin x) (Fin y) = true <-> x < y.
Proof.
  simpl. destruct (Qle_bool y x) eqn:E; simpl.
  - apply Qle_bool_iff in E. split; [discriminate | intros H; lra].
  - split; [intros _ | reflexivity].
    apply Qnot_le_lt. intros H. apply Qle_bool_iff in H. congruence.
Qed.

Lemma fold_min_finite (qs : list Q) :
  forall m0,
    exists m,
      fold_left (fun m y => if float_lt y m then y else m) (map Fin qs)
                (Fin m0) = Fin m
      /\ (m = m0 \/ In m qs)
      /\ m <= m0
      /\ (forall x, In x qs -> m <= x).
Proof.
  induction qs as [| y qs IH]; intros m0; cbn [map fold_left].
  - exists m0. repeat split; auto; try lra. intros x [].
  - destruct (float_lt (Fin y) (Fin m0)) eqn:E.
    + apply float_lt_Fin in E.
      destruct (IH y) as (m & Hm & Hin & Hle & Hall).
      exists m. split; [exact Hm |]. split; [| split].
      * right. destruct Hin as [-> | Hin]; simpl; auto.
      * lra.
      * intros x [<- | Hx]; auto.
    + assert (Hge : m0 <= y).
      { apply Qnot_lt_le. intros H. apply float_lt_Fin in H. congruence. }
      destruct (IH m0) as (m & Hm & Hin & Hle & Hall).
      exists m. split; [exact Hm |]. split; [| split].
      * destruct Hin as [-> | Hin]; simpl; auto.
      * exact Hle.
      * intros x [<- | Hx]; [lra | auto].
Qed.

Lemma fold_max_finite (qs : list Q) :
  forall m0,
    exists m,
      fold_left (fun m y => if float_lt m y then y else m) (map Fin qs)
                (Fin m0) = Fin m
      /\ (m = m0 \/ In m qs)
      /\ m0 <= m
      /\ (forall x, In x qs -> x <= m).
Proof.
  induction qs as [| y qs IH]; intros m0; cbn [map fold_left].
  - exists m0. repeat split; auto; try lra. intros x [].
  - destruct (float_lt (Fin m0) (Fin y)) eqn:E.
    + apply float_lt_Fin in E.
      destruct (IH y) as (m & Hm & Hin & Hle & Hall).
      exists m. split; [exact Hm |]. split; [| split].
      * right. destruct Hin as [-> | Hin]; simpl; auto.
      * lra.
      * intros x [<- | Hx]; auto.
    + assert (Hge : y <= m0).
      { apply Qnot_lt_le. intros H. apply float_lt_Fin in H. congruence. }
      destruct (IH m0) as (m & Hm & Hin & Hle & Hall).
      exists m. split; [exact Hm |]. split; [| split].
      * destruct Hin as [-> | Hin]; simpl; auto.
      * exact Hle.
      * intros x [<- | Hx]; [lra | auto].
Qed.

Lemma py_min_finite (q : Q) (qs : list Q) :
  exists m,
    py_min (map Fin (q :: qs)) = Ok (Fin m)
    /\ In m (q :: qs)
    /\ (forall x, In x (q :: qs) -> m <= x).
Proof.
  destruct (fold_min_finite qs q) as (m & Hm & Hin & Hle & Hall).
  exists m. cbn [map py_min]. rewrite Hm. split; [reflexivity |].
  split; [simpl; destruct Hin; auto |].
  intros x [<- | Hx]; auto.
Qed.

Lemma py_max_finite (q : Q) (qs : list Q) :
  exists m,
    py_max (map Fin (q :: qs)) = Ok (Fin m)
    /\ In m (q :: qs)
    /\ (forall x, In x (q :: qs) -> x <= m).
Proof.
  destruct (fold_max_finite qs q) as (m & Hm & Hin & Hle & Hall).
  exists m. cbn [map py_max]. rewrite Hm. split; [reflexivity |].
  split; [simpl; destruct Hin; auto |].
  intros x [<- | Hx]; auto.
Qed.

Lemma zero_inside_finite (qs : list Q) :
  qs <> [] ->
  exists b,
    zero_inside (map Fin qs) = Ok b
    /\ (b = true
        <-> (exists q, In q qs /\ q < 0) /\ (exists q, In q qs /\ 0 < q)).
Proof.
  destruct qs as [| q qs]; [congruence |]. intros _.
  destruct (py_min_finite q qs) as (mn & Hmn & Hmn_in & Hmn_le).
  destruct (py_max_finite q qs) as (mx & Hmx & Hmx_in & Hmx_ge).
  unfold zero_inside, rbind. rewrite Hmn.
  destruct (float_lt (Fin mn) (Fin 0)) eqn:E1.
  - apply float_lt_Fin in E1. rewrite Hmx.
    destruct (float_lt (Fin 0) (Fin mx)) eqn:E2.
    + apply float_lt_Fin in E2. exists true. split; [reflexivity |].
      split; [intros _ | reflexivity]. split; eauto.
    + exists false. split; [reflexivity |]. split; [discriminate |].
      intros [_ [x [Hx Hpos]]]. exfalso.
      assert (H : 0 < mx) by (specialize (Hmx_ge x Hx); lra).
      apply float_lt_Fin in H. congruence.
  - exists false. split; [reflexivity |]. split; [discriminate |].
    intros [[x [Hx Hneg]] _]. exfalso.
    assert (H : mn < 0) by (specialize (Hmn_le x Hx); lra).
    apply float_lt_Fin in H. congruence.
Qed.

Lemma fold_min_nan (l : list float64) :
  fold_left (fun m y => if float_lt y m then y else m) l NaN = NaN.
Proof.
  induction l as [| y l IH]; [reflexivity |]. cbn [fold_left].
  replace (float_lt y NaN) with false by (destruct y; reflexivity).
  exact IH.
Qed.

Lemma zero_inside_nan_first (l : list float64) :
  zero_inside (NaN :: l) = Ok false.
Proof.
  unfold zero_inside, rbind, py_min. rewrite fold_min_nan. reflexivity.
Qed.

(** ** Zero lines *)

Lemma update_hlines (io : Env) (s s' : OrbitDisplay) :
  update io s = (Ok tt, s') ->
  exists vals bx b_y,
    monitor_poll io = Ok vals
    /\ zero_inside (map (fun kv => to_float64 (snd kv)) (valsX vals)) = Ok bx
    /\ zero_inside (map (fun kv => to_float64 (snd kv)) (valsY vals)) = Ok b_y
    /\ x_plot_hlines s'
       = (if bx then S (x_plot_hlines s) else x_plot_hlines s)
    /\ y_plot_hlines s'
       = (if b_y then S (y_plot_hlines s) else y_plot_hlines s).
Proof.
  intros Hu.
  destruct (update_ok_inv io s Hu) as (vals & cc & s1 & Hp & Hc & Hstep & Hpub).
  pose proof (collect_step_static vals (fst cc) s) as Hst.
  rewrite Hstep in Hst. cbn [snd] in Hst.
  apply static_view_fields in Hst.
  destruct Hst as (_ & _ & _ & Hhx & Hhy & _).
  rewrite publish_raw_cases in Hpub. exists vals.
  destruct (zero_inside _) as [bx |]; [| discriminate].
  cbv zeta in Hpub.
  destruct (zero_inside _) as [b_y |]; [| discriminate].
  exists bx, b_y. injection Hpub as <-.
  rewrite <- Hhx, <- Hhy.
  destruct bx, b_y; repeat split; auto.
Qed.

Lemma hline_rule (vs : dict sample) (b : bool) (h h' : nat) :
  zero_inside (map (fun kv => to_float64 (snd kv)) vs) = Ok b ->
  h' = (if b then S h else h) ->
  (forall d v rest, vs = (d, v) :: rest -> to_float64 v = NaN -> h' = h)
  /\ (forall qs,
         map snd vs = map (fun q => Some (Fin q)) qs ->
         ((exists q, In q qs /\ q < 0) /\ (exists q, In q qs /\ 0 < q) ->
          h' = S h)
         /\ (~ ((exists q, In q qs /\ q < 0) /\ (exists q, In q qs /\ 0 < q)) ->
             h' = h)).
Proof.
  intros Hz ->. split.
  - intros d v rest -> Hv. cbn [map snd] in Hz. rewrite Hv in Hz.
    rewrite zero_inside_nan_first in Hz. injection Hz as <-. reflexivity.
  - intros qs Hqs.
    assert (E : map (fun kv => to_float64 (snd kv)) vs = map Fin qs).
    { rewrite <- (map_map snd to_float64), Hqs, map_map. reflexivity. }
    rewrite E in Hz.
    destruct qs as [| q qs].
    { destruct vs; [discriminate Hz | discriminate Hqs]. }
    destruct (@zero_inside_finite (q :: qs)) as (b' & Hb' & Hiff);
      [discriminate |].
    rewrite Hb' in Hz. injection Hz as ->. split.
    + intros H. apply Hiff in H. now subst b.
    + intros H. destruct b; [| reflexivity]. exfalso. apply H.
      now apply Hiff.
Qed.

(** X20.  A cycle that returns adds a zero line to a plot exactly when the
    least reading of that axis compares below zero and the greatest above:
    for readings that are all present numbers, when one is negative and one
    is positive; never when the first reading is missing or NaN, whatever
    the others are.  A line once added is not removed, so every such cycle
    adds one more. *)
Theorem zero_line_rule :
  forall (io : Env) (s s' : OrbitDisplay),
    update io s = (Ok tt, s') ->
    exists vals,
      monitor_poll io = Ok vals
      /\ (forall d v rest,
             valsX vals = (d, v) :: rest -> to_float64 v = NaN ->
             x_plot_hlines s' = x_plot_hlines s)
      /\ (forall qs,
             map snd (valsX vals) = map (fun q => Some (Fin q)) qs ->
             ((exists q, In q qs /\ q < 0) /\ (exists q, In q qs /\ 0 < q) ->
              x_plot_hlines s' = S (x_plot_hlines s))
             /\ (~ ((exists q, In q qs /\ q < 0)
                    /\ (exists q, In q qs /\ 0 < q)) ->
                 x_plot_hlines s' = x_plot_hlines s))
      /\ (forall d v rest,
             valsY vals = (d, v) :: rest -> to_float64 v = NaN ->
             y_plot_hlines s' = y_plot_hlines s)
      /\ (forall qs,
             map snd (valsY vals) = map (fun q => Some (Fin q)) qs ->
             ((exists q, In q qs /\ q < 0) /\ (exists q, In q qs /\ 0 < q) ->
              y_plot_hlines s' = S (y_plot_hlines s))
             /\ (~ ((exists q, In q qs /\ q < 0)
                    /\ (exists q, In q qs /\ 0 < q)) ->
                 y_plot_hlines s' = y_plot_hlines s)).
Proof.
  intros io s s' Hu.
  destruct (update_hlines io s Hu)
    as (vals & bx & b_y & Hp & Hzx & Hzy & Hx & Hy).
  destruct (hline_rule (valsX vals) (x_plot_hlines s) Hzx Hx) as [X1 X2].
  destruct (hline_rule (valsY vals) (y_plot_hlines s) Hzy Hy) as [Y1 Y2].
  exists vals. auto.
Qed.

Lemma zero_line_rule_witness :
  let x := Scenario.readings (Some (Fin (-1))) (Some (Fin 0)) (Some (Fin 2)) in
  let y := Scenario.readings None (Some (Fin (-1))) (Some (Fin 2)) in
  let io := Scenario.cycle x y (Fin 0) in
  let s' := run (update io) Scenario.s0 in
  exists vals,
    monitor_poll io = Ok vals
    /\ (forall d v rest,
           valsX vals = (d, v) :: rest -> to_float64 v = NaN ->
           x_plot_hlines s' = x_plot_hlines Scenario.s0)
    /\ (forall qs,
           map snd (valsX vals) = map (fun q => Some (Fin q)) qs ->
           ((exists q, In q qs /\ q < 0) /\ (exists q, In q qs /\ 0 < q) ->
            x_plot_hlines s' = S (x_plot_hlines Scenario.s0))
           /\ (~ ((exists q, In q qs /\ q < 0)
                  /\ (exists q, In q qs /\ 0 < q)) ->
               x_plot_hlines s' = x_plot_hlines Scenario.s0))
    /\ (forall d v rest,
           valsY vals = (d, v) :: rest -> to_float64 v = NaN ->
           y_plot_hlines s' = y_plot_hlines Scenario.s0)
    /\ (forall qs,
           map snd (valsY vals) = map (fun q => Some (Fin q)) qs ->
           ((exists q, In q qs /\ q < 0) /\ (exists q, In q qs /\ 0 < q) ->
            y_plot_hlines s' = S (y_plot_hlines Scenario.s0))
           /\ (~ ((exists q, In q qs /\ q < 0)
                  /\ (exists q, In q qs /\ 0 < q)) ->
               y_plot_hlines s' = y_plot_hlines Scenario.s0)).
Proof.
  intros x y io s'.
  apply (@zero_line_rule io Scenario.s0 s').
  vm_compute. reflexivity.
Defined.

(** ** The bar width *)



(** ** Replacing the table *)


(** ** A countdown at or below zero *)

Lemma call_nonpositive (c : call) (s : OrbitDisplay) :
  (_reference_count s <= 0)%Z ->
  (_reference_count (run (do_call c) s) <= 0)%Z
  /\ _collecting_reference (run (do_call c) s)
     = (_collecting_reference s || is_collect c)%bool
  /\ (_x_ref_source (run (do_call c) s) = _x_ref_source s
      \/ (ref_x (_x_ref_source (run (do_call c) s)) = []
          /\ ref_y (_x_ref_source (run (do_call c) s)) = []))
  /\ (_y_ref_source (run (do_call c) s) = _y_ref_source s
      \/ (ref_x (_y_ref_source (run (do_call c) s)) = []
          /\ ref_y (_y_ref_source (run (do_call c) s)) = [])).
Proof.
  intros Hc.
  destruct c as [io | table | cv cmap extents | |]; cbn [do_call is_collect].
  - rewrite orb_false_r.
    destruct (update_steps io s) as [-> | (vals & cc & Hv)]; [auto |].
    destruct (collect_step_nonpositive vals (fst cc) s Hc)
      as (H1 & H2 & H3 & H4).
    unfold reference_view in Hv.
    injection Hv as Ecol _ Ecount _ Ex Ey _ _ _ _ _ _.
    rewrite Ecol, Ecount, Ex, Ey. auto.
  - rewrite orb_false_r. cbn. auto 10.
  - rewrite orb_false_r. unfold run. rewrite update_colormap_cases.
    destruct extents as [| lo [| hi rest]]; try (cbn; auto 10).
    destruct (py_range lo hi (length cmap)); cbn; auto 10.
  - rewrite orb_true_r. cbn. auto 10.
  - rewrite orb_false_r. cbn. auto 10.
Qed.

(** X23.  A countdown at or below zero stays there whatever is called, and
    from then on no capture ends: the flag is only ever set (by the collect
    button), never cleared, and each published reference curve is as it was
    or has been emptied. *)
Theorem nonpositive_countdown_absorbing :
  forall (cs : list call) (s : OrbitDisplay),
    (_reference_count s <= 0)%Z ->
    (_reference_count (calls cs s) <= 0)%Z
    /\ _collecting_reference (calls cs s)
       = (_collecting_reference s || existsb is_collect cs)%bool
    /\ (_x_ref_source (calls cs s) = _x_ref_source s
        \/ (ref_x (_x_ref_source (calls cs s)) = []
            /\ ref_y (_x_ref_source (calls cs s)) = []))
    /\ (_y_ref_source (calls cs s) = _y_ref_source s
        \/ (ref_x (_y_ref_source (calls cs s)) = []
            /\ ref_y (_y_ref_source (calls cs s)) = [])).
Proof.
  unfold calls. induction cs as [| c cs IH]; intros s Hc.
  - cbn. rewrite orb_false_r. auto.
  - cbn [fold_left existsb].
    destruct (call_nonpositive c s Hc) as (C1 & C2 & C3 & C4).
    destruct (IH (run (do_call c) s) C1) as (H1 & H2 & H3 & H4).
    split; [exact H1 |]. split; [| split].
    + rewrite H2, C2. now rewrite orb_assoc.
    + destruct H3 as [H3 | H3]; [rewrite H3; exact C3 | auto].
    + destruct H4 as [H4 | H4]; [rewrite H4; exact C4 | auto].
Qed.

Lemma nonpositive_countdown_absorbing_witness :
  let s := set_reference_count 0 Scenario.s0 in
  let cs := [CallCollectReference;
             CallUpdate (Scenario.cycle Scenario.x1 Scenario.x1 (Fin 0));
             CallUpdate (Scenario.cycle Scenario.x2 Scenario.x2 (Fin 0));
             CallUpdateTable Scenario.table3;
             CallUpdate (Scenario.cycle Scenario.x2 Scenario.x2 (Fin 0))] in
  (_reference_count (calls cs s) <= 0)%Z
  /\ _collecting_reference (calls cs s)
     = (_collecting_reference s || existsb is_collect cs)%bool
  /\ (_x_ref_source (calls cs s) = _x_ref_source s
      \/ (ref_x (_x_ref_source (calls cs s)) = []
          /\ ref_y (_x_ref_source (calls cs s)) = []))
  /\ (_y_ref_source (calls cs s) = _y_ref_source s
      \/ (ref_x (_y_ref_source (calls cs s)) = []
          /\ ref_y (_y_ref_source (calls cs s)) = [])).
Proof.
  intros s cs.
  apply (@nonpositive_countdown_absorbing cs s).
  vm_compute. discriminate.
Defined.

(** ** A completion that fails *)

Lemma line_z_raises (means : list float64) :
  forall (z : list float64) (k i : nat) (x : float64),
    nth_error means i = Some x ->
    np_isnan x = false ->
    (length z <= k + i)%nat ->
    line_z z k means = Raise IndexError.
Proof.
  induction means as [| y means IH]; intros z k i x Hn Hx Hlen.
  - destruct i; discriminate.
  - cbn [line_z]. destruct i as [| i].
    + simpl in Hn. injection Hn as ->. rewrite Hx. unfold list_index.
      assert (E : nth_error z k = None) by (apply nth_error_None; lia).
      rewrite E. reflexivity.
    + simpl in Hn.
      assert (Hrest : line_z z (S k) means = Raise IndexError)
        by (apply (IH z (S k) i x Hn Hx); lia).
      destruct (np_isnan y); [exact Hrest |].
      unfold list_index. destruct (nth_error z k); [| reflexivity].
      cbn [rbind]. rewrite Hrest. reflexivity.
Qed.

(** X24.  When the cycle that ends a window finds an X accumulator row
    with a valid mean but no z coordinate at its index (fewer z entries
    than rows), it raises IndexError after the flag was cleared and the
    countdown reached zero: the object is left not capturing, with the
    countdown at 0 instead of the target, the samples still in the
    accumulators and the published curves as they were. *)
Theorem completion_without_z_raises :
  forall (io : Env) (vals : Vals) (s : OrbitDisplay) (m : ScalarVariable)
         (extents : list float64) (cmap : list color) (cv : float64)
         (i : nat) (row : string * list sample),
    _color_monitor s = Assigned (Some m) ->
    _extents s = Assigned extents ->
    _color_map s = Assigned cmap ->
    extents <> [] ->
    (length extents <= length cmap)%nat ->
    monitor_poll io = Ok vals ->
    color_monitor_poll io = Ok (Some cv) ->
    incl (keys (valsX vals)) (keys (accX (_reference_measurements s))) ->
    incl (keys (valsY vals)) (keys (accY (_reference_measurements s))) ->
    _collecting_reference s = true ->
    _reference_count s = 1%Z ->
    nth_error (snd (append_samples (valsX vals)
                      (accX (_reference_measurements s)))) i = Some row ->
    np_isnan (row_mean row) = false ->
    (length (_z s) <= i)%nat ->
    outcome (update io) s = Raise IndexError
    /\ _collecting_reference (run (update io) s) = false
    /\ _reference_count (run (update io) s) = 0%Z
    /\ accX (_reference_measurements (run (update io) s))
       = snd (append_samples (valsX vals) (accX (_reference_measurements s)))
    /\ accY (_reference_measurements (run (update io) s))
       = snd (append_samples (valsY vals) (accY (_reference_measurements s)))
    /\ _x_ref_source (run (update io) s) = _x_ref_source s
    /\ _y_ref_source (run (update io) s) = _y_ref_source s.
Proof.
  intros io vals s m extents cmap cv i row Hm He Hc Hne Hlen Hp Hcp
         Hix Hiy Hcol Hone Hrow Hnan Hz.
  destruct (pick_colors_ok io vals s Hm He Hc Hne Hlen Hcp) as [c Hpc].
  unfold outcome, run.
  rewrite (update_after_fetch io s Hp Hpc), collect_step_cases, Hcol, Hone.
  cbv zeta. cbn [fst].
  pose proof (append_samples_ok _ _ Hix) as Hax.
  pose proof (append_samples_ok _ _ Hiy) as Hay.
  destruct (append_samples (valsX vals) _) as [rx ax].
  destruct (append_samples (valsY vals) _) as [ry ay].
  cbn [fst snd] in *. subst rx ry.
  change (1 - 1 =? 0)%Z with true. cbv iota.
  rewrite complete_reference_cases.
  cbn -[axis_means line_z clear_lists drop_nan].
  assert (Hl : line_z (_z s) 0 (axis_means ax) = Raise IndexError).
  { apply line_z_raises with (i := i) (x := row_mean row).
    - unfold axis_means. rewrite nth_error_map, Hrow. reflexivity.
    - exact Hnan.
    - simpl. exact Hz. }
  rewrite Hl. repeat split.
Qed.

Lemma completion_without_z_raises_witness :
  let short := {| table_data_Z := [("d0", Fin 0)]%string;
                  rows := ["d0"; "d1"]%string |} in
  let s := set_reference_count 1
             (run _collect_reference
                (run (update_table short) Scenario.s0)) in
  let r := [("d0", Some (Fin 1)); ("d1", Some (Fin 2))]%string in
  let io := Scenario.cycle r r (Fin 0) in
  outcome (update io) s = Raise IndexError
  /\ _collecting_reference (run (update io) s) = false
  /\ _reference_count (run (update io) s) = 0%Z
  /\ accX (_reference_measurements (run (update io) s))
     = snd (append_samples r (accX (_reference_measurements s)))
  /\ accY (_reference_measurements (run (update io) s))
     = snd (append_samples r (accY (_reference_measurements s)))
  /\ _x_ref_source (run (update io) s) = _x_ref_source s
  /\ _y_ref_source (run (update io) s) = _y_ref_source s.
Proof.
  intros short s r io.
  apply (@completion_without_z_raises io {| valsX := r; valsY := r |} s
           "signal"%string [Fin 0; Fin 1; Fin 2]
           ["red"; "green"; "blue"]%string (Fin 0) 1%nat
           ("d1"%string, [Some (Fin 2)]));
    try reflexivity.
  - discriminate.
  - intros k Hk. exact Hk.
  - intros k Hk. exact Hk.
Defined.
